(** * LOBSTER output readers of pymatgen ([pymatgen/io/lobster.py])

    A shallow embedding of the two readers [Cohpcar] and [Icohplist] and of
    the header-line parser [Cohpcar._get_bond_data], followed by the
    properties of the file-format specification that concern them and by
    further properties of the readers, read off the code.

    Conventions of the embedding:
    - a text is a [string]; its characters are code points below 256;
    - a Python exception is a value [Raise e] of the type [result];
    - a Python [int] is a [Z];
    - a Python [float] is a value of an abstract type, produced only by the
      conversion [float(s)], which is an interface of the Python runtime
      (class [PyFloat] below);
    - a [dict] with string keys is a [gmap string _]; a [dict] keyed by
      [Spin] is a [gmap Spin _]; a [dict] with a fixed set of literal keys
      is a record;
    - an instance is the record of its attributes, each [None] until
      [__init__] assigns it; the call of the class returns the instance
      only when [__init__] returns;
    - the file is read by the caller: the readers take its text. *)

From Stdlib Require Import ZArith String Ascii List DecimalString DecimalZ QArith.
From stdpp Require Import base option list gmap strings fin_maps fin_sets.

#[local] Set Warnings "-clear-no-such-hyp".
Local Open Scope string_scope.

(** ** Python exceptions and results *)

Inductive PyErr : Set := IndexError | ValueError.

Inductive result (A : Type) : Type :=
| Ok (a : A)
| Raise (e : PyErr).
Arguments Ok {A} a.
Arguments Raise {A} e.

#[global] Instance result_ret : MRet result := fun A a => Ok a.
#[global] Instance result_bind : MBind result := fun A B f m =>
  match m with Ok a => f a | Raise e => Raise e end.
#[global] Instance result_fmap : FMap result := fun A B f m =>
  match m with Ok a => Ok (f a) | Raise e => Raise e end.

Definition is_Raise {A} (r : result A) : Prop := exists e, r = Raise e.

(** A loop whose body may raise: [for x in xs: acc = body(acc, x)]. *)
Fixpoint foldM {A B} (body : B -> A -> result B) (acc : B) (xs : list A)
  : result B :=
  match xs with
  | [] => Ok acc
  | x :: xs' => acc' ← body acc x; foldM body acc' xs'
  end.

(* A comprehension whose element expression may raise,
   [f(x) for x in xs], is stdpp's [mapM f xs] in the monad [result]. *)

(** ** Python built-ins used by the readers *)

Module Py.

(** [len(l)] *)
Definition len {A} (l : list A) : Z := Z.of_nat (length l).

(** [l[i]], with negative indices counted from the end. *)
Definition index {A} (l : list A) (i : Z) : result A :=
  let j := if (i <? 0)%Z then (len l + i)%Z else i in
  if (j <? 0)%Z then Raise IndexError
  else match l !! Z.to_nat j with
       | Some x => Ok x
       | None => Raise IndexError
       end.

(** The position a slice bound denotes in a sequence of length [n]. *)
Definition clamp (n : Z) (i : Z) : nat :=
  Z.to_nat (if (i <? 0)%Z then Z.max (n + i) 0 else Z.min i n).

(** [l[start:]] *)
Definition slice_from {A} (l : list A) (start : Z) : list A :=
  drop (clamp (len l) start) l.

(** [l[start:stop]] *)
Definition slice {A} (l : list A) (start stop : Z) : list A :=
  let lo := clamp (len l) start in
  let hi := clamp (len l) stop in
  take (hi - lo) (drop lo l).

(** [range(n)] *)
Definition range (n : Z) : list Z := seqZ 0 n.

(** [enumerate(l)] *)
Definition enumerate {A} (l : list A) : list (Z * A) :=
  imap (fun i x => (Z.of_nat i, x)) l.

(** [s.split(sep)] for a separator of one character. *)
Fixpoint split (sep : ascii) (s : string) : list string :=
  match s with
  | EmptyString => [EmptyString]
  | String c s' =>
      if Ascii.eqb c sep then EmptyString :: split sep s'
      else match split sep s' with
           | w :: ws => String c w :: ws
           | [] => [String c EmptyString]
           end
  end.

(** [str.isspace] on one character (code points below 256). *)
Definition is_space (c : ascii) : bool :=
  let n := nat_of_ascii c in
  ((9 <=? n) && (n <=? 13) || (28 <=? n) && (n <=? 32)
   || (n =? 133) || (n =? 160))%nat.

(** [s.split()]: the maximal runs of characters that are not white space. *)
Fixpoint split_ws (s : string) : list string :=
  match s with
  | EmptyString => []
  | String c s' =>
      if is_space c then split_ws s'
      else match s' with
           | EmptyString => [String c EmptyString]
           | String c' _ =>
               if is_space c' then String c EmptyString :: split_ws s'
               else match split_ws s' with
                    | w :: ws => String c w :: ws
                    | [] => [String c EmptyString]
                    end
           end
  end.

(** The white space that [int] skips before and after a literal: the
    characters of [str.isspace] other than the separators 28 to 31 (code
    points below 256). *)
Definition is_int_space (c : ascii) : bool :=
  let n := nat_of_ascii c in
  ((9 <=? n) && (n <=? 13) || (n =? 32) || (n =? 133) || (n =? 160))%nat.

(** A text without the white space that [int] skips at its two ends. *)
Fixpoint skip_leading (s : string) : string :=
  match s with
  | String c s' => if is_int_space c then skip_leading s' else s
  | EmptyString => EmptyString
  end.

Fixpoint skip_trailing (s : string) : string :=
  match s with
  | EmptyString => EmptyString
  | String c s' =>
      match skip_trailing s' with
      | EmptyString =>
          if is_int_space c then EmptyString else String c EmptyString
      | r => String c r
      end
  end.

Definition skip_space (s : string) : string :=
  skip_trailing (skip_leading s).

(** [s[:-1]] *)
Fixpoint drop_last (s : string) : string :=
  match s with
  | EmptyString => EmptyString
  | String c EmptyString => EmptyString
  | String c s' => String c (drop_last s')
  end.

(** [s.replace("->", ":")] *)
Fixpoint replace_arrow (s : string) : string :=
  match s with
  | EmptyString => EmptyString
  | String c s' =>
      match s' with
      | String c' s'' =>
          if Ascii.eqb c "-" && Ascii.eqb c' ">"
          then String ":" (replace_arrow s'')
          else String c (replace_arrow s')
      | EmptyString => s
      end
  end.

(** [sub in s] *)
Fixpoint contains (sub s : string) : bool :=
  match s with
  | EmptyString => String.prefix sub EmptyString
  | String _ s' => String.prefix sub s || contains sub s'
  end.

(** The class [\d] of the module [re] (code points below 256). *)
Definition is_digit (c : ascii) : bool :=
  let n := nat_of_ascii c in ((48 <=? n) && (n <=? 57))%nat.

(** [re.split(p+, s)] for a character class [p]: the pieces of [s] between
    the maximal runs of characters of the class. [in_run] tells whether the
    previous character belonged to such a run. *)
Fixpoint re_split_go (p : ascii -> bool) (in_run : bool) (s : string)
  : list string :=
  match s with
  | EmptyString => [EmptyString]
  | String c s' =>
      if p c then
        if in_run then re_split_go p true s'
        else EmptyString :: re_split_go p true s'
      else match re_split_go p false s' with
           | w :: ws => String c w :: ws
           | [] => [String c EmptyString]
           end
  end.

Definition re_split (p : ascii -> bool) (s : string) : list string :=
  re_split_go p false s.

(** The value of a run of decimal digits, most significant first. *)
Fixpoint digits_value (acc : Z) (s : string) : option Z :=
  match s with
  | EmptyString => Some acc
  | String c s' =>
      if is_digit c
      then digits_value (10 * acc + Z.of_nat (nat_of_ascii c - 48))%Z s'
      else None
  end.

(** The value of the digits of an integer literal: decimal digits, with
    single underscores between digits (as Python 3.6 and later read them:
    ["1_000"] is 1000, and ["_1"], ["1_"] and ["1__0"] are refused).
    [after_digit] tells whether the previous character was a digit. *)
Fixpoint literal_value (acc : Z) (after_digit : bool) (s : string)
  : option Z :=
  match s with
  | EmptyString => if after_digit then Some acc else None
  | String c s' =>
      if is_digit c
      then literal_value (10 * acc + Z.of_nat (nat_of_ascii c - 48))%Z true s'
      else if Ascii.eqb c "_" && after_digit then literal_value acc false s'
      else None
  end.

Definition unsigned_value (s : string) : result Z :=
  match literal_value 0 false s with
  | Some n => Ok n
  | None => Raise ValueError
  end.

(** [int(s)]: optional white space around an optional sign and the digits
    of an integer literal. A Python [int] has no bound, and the limit that
    Python 3.11 and later put on the number of digits in the conversions
    between [int] and [str] ([sys.int_max_str_digits]) is taken to be
    switched off, here and in [format_d]. *)
Definition int (s : string) : result Z :=
  match skip_space s with
  | String "-" r => Z.opp <$> unsigned_value r
  | String "+" r => unsigned_value r
  | r => unsigned_value r
  end.

(** ["%d" % n] *)
Definition format_d (n : Z) : string := NilZero.string_of_int (Z.to_int n).

End Py.

(** ** The conversion [float(s)] *)

Class PyFloat := {
  float : Type;
  py_float : string -> result float
}.

(** ** Spin channels ([pymatgen.electronic_structure.core.Spin]) *)

Inductive Spin : Set := Spin_up | Spin_down.

#[global] Instance Spin_eq_dec : EqDecision Spin.
Proof. solve_decision. Defined.

#[global] Instance Spin_countable : Countable Spin.
Proof.
  refine (inj_countable' (fun s => match s with Spin_up => true | Spin_down => false end)
            (fun b : bool => if b then Spin_up else Spin_down) _).
  intros []; reflexivity.
Defined.

(** ** [numpy] arrays of floats

    A two-dimensional array is the list of its rows. [np.array] applied to
    rows of unequal lengths is taken to raise [ValueError] (an inhomogeneous
    shape, as numpy reports it from version 1.24 on; earlier versions build
    a one-dimensional array of row objects instead), and applied to no row
    at all it gives an array with no element, any index of which raises
    [IndexError]. With [dtype=float] a token is converted as [float(s)]
    converts it. *)

Module Np.
Section WithFloat.
Context `{PyFloat}.

(** [np.array(tokens, dtype=float)] *)
Definition array_of_tokens (tokens : list string) : result (list float) :=
  mapM py_float tokens.

(** [np.array(rows)] *)
Definition array (rows : list (list float)) : result (list (list float)) :=
  match rows with
  | [] => Ok []
  | r :: rs =>
      if forallb (fun r' => Nat.eqb (length r') (length r)) rs then Ok rows
      else Raise ValueError
  end.

(** [a.transpose()] of an array with rows of [c] elements. *)
Fixpoint transpose_go (c : nat) (rows : list (list float))
  : list (list float) :=
  match rows with
  | [] => replicate c []
  | r :: rs => zip_with cons r (transpose_go c rs)
  end.

Definition transpose (rows : list (list float)) : list (list float) :=
  match rows with
  | [] => []
  | r :: _ => transpose_go (length r) rows
  end.

End WithFloat.
End Np.

(** ** The reader of COHPCAR files: class [Cohpcar] *)

Module Cohpcar.
Section WithFloat.
Context `{PyFloat}.

(** The character of line ends. *)
Definition newline : ascii := "010"%char.

(** [_get_bond_data(line)]: the label, the length and the zero-based site
    indices of a header line such as [No.4:Fe1->Fe9(2.4524893531900283)]. *)
Definition _get_bond_data (line : string)
  : result (string * float * (Z * Z)) :=
  let line := Py.split "(" line in
  last ← Py.index line (-1);
  length ← py_float (Py.drop_last last);
  first ← Py.index line 0;
  let sites := Py.slice (Py.split ":" (Py.replace_arrow first)) 1 3 in
  site_indices ←
    mapM (fun site =>
            digits ← Py.index (Py.re_split (fun c => negb (Py.is_digit c)) site) 1;
            n ← Py.int digits;
            Ok (n - 1)%Z) sites;
  species ← mapM (fun site => Py.index (Py.re_split Py.is_digit site) 0) sites;
  species0 ← Py.index species 0;
  index0 ← Py.index site_indices 0;
  species1 ← Py.index species 1;
  index1 ← Py.index site_indices 1;
  let label := species0 ++ Py.format_d (index0 + 1) ++ "-"
               ++ species1 ++ Py.format_d (index1 + 1) in
  Ok (label, length, (index0, index1)).

(** The value of a key of [cohp_data]: the keys ["length"] and ["sites"]
    are absent from the entry of the average. *)
Record BondCurveRecord := {
  COHP : gmap Spin (list float);
  ICOHP : gmap Spin (list float);
  bond_length : option float;
  sites : option (Z * Z)
}.

(** The attributes of an instance; an attribute is [None] until [__init__]
    assigns it. *)
Record t := {
  are_coops : option bool;
  efermi : option float;
  is_spin_polarized : option bool;
  energies : option (list float);
  cohp_data : option (gmap string BondCurveRecord)
}.

Definition fresh : t :=
  {| are_coops := None; efermi := None; is_spin_polarized := None;
     energies := None; cohp_data := None |}.

Definition set_are_coops (v : bool) (self : t) : t :=
  {| are_coops := Some v; efermi := efermi self;
     is_spin_polarized := is_spin_polarized self;
     energies := energies self; cohp_data := cohp_data self |}.
Definition set_efermi (v : float) (self : t) : t :=
  {| are_coops := are_coops self; efermi := Some v;
     is_spin_polarized := is_spin_polarized self;
     energies := energies self; cohp_data := cohp_data self |}.
Definition set_is_spin_polarized (v : bool) (self : t) : t :=
  {| are_coops := are_coops self; efermi := efermi self;
     is_spin_polarized := Some v;
     energies := energies self; cohp_data := cohp_data self |}.
Definition set_energies (v : list float) (self : t) : t :=
  {| are_coops := are_coops self; efermi := efermi self;
     is_spin_polarized := is_spin_polarized self;
     energies := Some v; cohp_data := cohp_data self |}.
Definition set_cohp_data (v : gmap string BondCurveRecord) (self : t) : t :=
  {| are_coops := are_coops self; efermi := efermi self;
     is_spin_polarized := is_spin_polarized self;
     energies := energies self; cohp_data := Some v |}.

(** [{spin: data[column(s)] for s, spin in enumerate(spins)}] *)
Definition spin_dict (spins : list Spin) (column : Z -> Z)
    (data : list (list float)) : result (gmap Spin (list float)) :=
  foldM (fun d '(s, spin) =>
           col ← Py.index data (column s);
           Ok (<[spin := col]> d))
        ∅ (Py.enumerate spins).

(** The channels selected by the second parameter. *)
Definition spins_of (flag : Z) : list Spin :=
  if (flag =? 2)%Z then [Spin_up; Spin_down] else [Spin_up].

(** Lines 71-80: the parameters line gives [num_bonds], [efermi] and the
    spin flag, in the order in which the source converts them. *)
Definition read_parameters (contents : list string)
  : result (Z * float * Z) :=
  line ← Py.index contents 1;
  let parameters := Py.split_ws line in
  p0 ← Py.index parameters 0;
  n ← Py.int p0;
  plast ← Py.index parameters (-1);
  ef ← py_float plast;
  p1 ← Py.index parameters 1;
  flag ← Py.int p1;
  Ok ((n - 1)%Z, ef, flag).

(** Lines 83-84: the rows of floats of the lines after the headers, and
    their transposed array. *)
Definition data_rows (contents : list string) (num_bonds : Z)
  : result (list (list float)) :=
  mapM (fun row => Np.array_of_tokens (Py.split_ws row))
       (Py.slice_from contents (num_bonds + 3)).

Definition read_data (contents : list string) (num_bonds : Z)
  : result (list (list float)) :=
  rows ← data_rows contents num_bonds;
  arr ← Np.array rows;
  Ok (Np.transpose arr).

(** Lines 87-90: the entry of the average. *)
Definition average_entry (spins : list Spin) (num_bonds : Z)
    (data : list (list float)) : result BondCurveRecord :=
  cohp ← spin_dict spins (fun s => 1 + 2 * s * (num_bonds + 1))%Z data;
  icohp ← spin_dict spins (fun s => 2 + 2 * s * (num_bonds + 1))%Z data;
  Ok {| COHP := cohp; ICOHP := icohp; bond_length := None; sites := None |}.

(** Lines 92-99: the body of the loop over the bonds. *)
Definition bond_entry (contents : list string) (spins : list Spin)
    (num_bonds : Z) (data : list (list float)) (bond : Z)
  : result (string * BondCurveRecord) :=
  line ← Py.index contents (3 + bond);
  '(label, length, site_indices) ← _get_bond_data line;
  cohp ← spin_dict spins (fun s => 2 * (bond + s * (num_bonds + 1)) + 3)%Z data;
  icohp ← spin_dict spins (fun s => 2 * (bond + s * (num_bonds + 1)) + 4)%Z data;
  Ok (label, {| COHP := cohp; ICOHP := icohp;
                bond_length := Some length; sites := Some site_indices |}).

(** Lines 82-100: what follows the parameters line. *)
Definition decode (contents : list string) (num_bonds : Z) (flag : Z)
    (self : t) : result t :=
  let spins := spins_of flag in
  let self := set_is_spin_polarized (flag =? 2)%Z self in
  data ← read_data contents num_bonds;
  column0 ← Py.index data 0;
  let self := set_energies column0 self in
  average ← average_entry spins num_bonds data;
  cohp_data ←
    foldM (fun cohp_data bond =>
             '(label, entry) ← bond_entry contents spins num_bonds data bond;
             Ok (<[label := entry]> cohp_data))
          {["average" := average]} (Py.range num_bonds);
  Ok (set_cohp_data cohp_data self).

(** [__init__(self, are_coops, filename)], given the text of the file. *)
Definition __init__ (are_coops : bool) (text : string) (self : t)
  : result t :=
  let self := set_are_coops are_coops self in
  let contents := Py.split newline text in
  '(num_bonds, ef, flag) ← read_parameters contents;
  decode contents num_bonds flag (set_efermi ef self).

(** [Cohpcar(are_coops, filename)]: the instance, when [__init__] returns. *)
Definition new (are_coops : bool) (text : string) : result t :=
  __init__ are_coops text fresh.

End WithFloat.
End Cohpcar.

(** ** The reader of ICOHPLIST files: class [Icohplist] *)

Module Icohplist.
Section WithFloat.
Context `{PyFloat}.

(** The value of a key of [icohplist]. *)
Record BondSummaryRecord := {
  bond_length : float;
  number_of_bonds : Z;
  icohp : gmap Spin float
}.

(** The attributes of an instance; an attribute is [None] until [__init__]
    assigns it. *)
Record t := {
  are_coops : option bool;
  is_spin_polarized : option bool;
  icohplist : option (gmap string BondSummaryRecord)
}.

Definition fresh : t :=
  {| are_coops := None; is_spin_polarized := None; icohplist := None |}.

Definition set_are_coops (v : bool) (self : t) : t :=
  {| are_coops := Some v; is_spin_polarized := is_spin_polarized self;
     icohplist := icohplist self |}.
Definition set_is_spin_polarized (v : bool) (self : t) : t :=
  {| are_coops := are_coops self; is_spin_polarized := Some v;
     icohplist := icohplist self |}.
Definition set_icohplist (v : gmap string BondSummaryRecord) (self : t) : t :=
  {| are_coops := are_coops self; is_spin_polarized := is_spin_polarized self;
     icohplist := Some v |}.

(** Line 166: the lines of the text without the first and the last. *)
Definition data_lines (text : string) : list string :=
  Py.slice (Py.split Cohpcar.newline text) 1 (-1).

(** Lines 170-175: [num_bonds] and the flag, from the line in the middle. *)
Definition detect (data : list string) : result (Z * bool) :=
  middle ← Py.index data (Z.div (Py.len data) 2);
  if Py.contains "distance" middle
  then Ok (Z.div (Py.len data) 2, true)
  else Ok (Py.len data, false).

(** [icohplist[label]["icohp"][Spin.down] = icohp] *)
Definition set_down (v : float) (r : BondSummaryRecord) : BondSummaryRecord :=
  {| bond_length := bond_length r; number_of_bonds := number_of_bonds r;
     icohp := <[Spin_down := v]> (icohp r) |}.

(** Lines 179-188: the body of the loop over the bonds. *)
Definition bond_step (data : list string) (num_bonds : Z) (polarized : bool)
    (icohplist : gmap string BondSummaryRecord) (bond : Z)
  : result (gmap string BondSummaryRecord) :=
  row ← Py.index data bond;
  let line := Py.split_ws row in
  elem1 ← Py.index line 1;
  elem2 ← Py.index line 2;
  let label := elem1 ++ "-" ++ elem2 in
  c3 ← Py.index line 3;
  length ← py_float c3;
  c4 ← Py.index line 4;
  up ← py_float c4;
  c5 ← Py.index line 5;
  num ← Py.int c5;
  let icohplist :=
    <[label := {| bond_length := length; number_of_bonds := num;
                  icohp := {[Spin_up := up]} |}]> icohplist in
  if polarized then
    row' ← Py.index data (bond + num_bonds + 1);
    c4' ← Py.index (Py.split_ws row') 4;
    down ← py_float c4';
    Ok (alter (set_down down) label icohplist)
  else Ok icohplist.

(** [__init__(self, are_coops, filename)], given the text of the file. *)
Definition __init__ (are_coops : bool) (text : string) (self : t)
  : result t :=
  let self := set_are_coops are_coops self in
  let data := data_lines text in
  '(num_bonds, polarized) ← detect data;
  let self := set_is_spin_polarized polarized self in
  icohplist ← foldM (bond_step data num_bonds polarized) ∅ (Py.range num_bonds);
  Ok (set_icohplist icohplist self).

(** [Icohplist(are_coops, filename)]: the instance, when [__init__] returns. *)
Definition new (are_coops : bool) (text : string) : result t :=
  __init__ are_coops text fresh.

End WithFloat.
End Icohplist.

(** ** A reading of decimal literals

    An instance of [PyFloat] on which the readers can be run: a literal
    [[sign] digits [. digits]] denotes the rational number it writes, and
    any other text is refused. *)

Module DecimalFloat.

Definition fraction (int_part frac_part : string) : result Q :=
  match int_part, frac_part with
  | EmptyString, EmptyString => Raise ValueError
  | _, _ =>
      match Py.digits_value 0 (int_part ++ frac_part) with
      | Some m =>
          Ok (Qred (Qmake m (Z.to_pos (10 ^ Z.of_nat (String.length frac_part)))))
      | None => Raise ValueError
      end
  end.

Definition unsigned (s : string) : result Q :=
  match Py.split "." s with
  | [i] => match i with EmptyString => Raise ValueError | _ => fraction i "" end
  | [i; f] => fraction i f
  | _ => Raise ValueError
  end.

Definition parse (s : string) : result Q :=
  match s with
  | String c r =>
      if Ascii.eqb c "-" then Qopp <$> unsigned r
      else if Ascii.eqb c "+" then unsigned r
      else unsigned s
  | EmptyString => Raise ValueError
  end.

#[export] Instance decimal : PyFloat := {| float := Q; py_float := parse |}.

End DecimalFloat.

(** * The vocabulary of the properties *)

(** ** Dictionaries, texts *)

(** A loop that inserts one computed entry per iteration: the entries exist
    for every element, and the dictionary is the initial one with the
    entries inserted from left to right. *)
Definition insert_entries {K V} `{Countable K} (m : gmap K V)
    (entries : list (K * V)) : gmap K V :=
  fold_left (fun m kv => <[kv.1 := kv.2]> m) entries m.

(** Whether a character occurs in a text. *)
Fixpoint mem_char (c : ascii) (s : string) : bool :=
  match s with
  | EmptyString => false
  | String c' s' => Ascii.eqb c c' || mem_char c s'
  end.




(** Whether all the characters of a text belong to a class. *)
Fixpoint all_chars (p : ascii -> bool) (s : string) : bool :=
  match s with
  | EmptyString => true
  | String c s' => p c && all_chars p s'
  end.

(** The value of a decimal numeral, digit by digit. *)
Fixpoint uint_value (acc : Z) (d : Decimal.uint) : Z :=
  match d with
  | Decimal.Nil => acc
  | Decimal.D0 l => uint_value (10 * acc + 0) l
  | Decimal.D1 l => uint_value (10 * acc + 1) l
  | Decimal.D2 l => uint_value (10 * acc + 2) l
  | Decimal.D3 l => uint_value (10 * acc + 3) l
  | Decimal.D4 l => uint_value (10 * acc + 4) l
  | Decimal.D5 l => uint_value (10 * acc + 5) l
  | Decimal.D6 l => uint_value (10 * acc + 6) l
  | Decimal.D7 l => uint_value (10 * acc + 7) l
  | Decimal.D8 l => uint_value (10 * acc + 8) l
  | Decimal.D9 l => uint_value (10 * acc + 9) l
  end.

(** ** Columns, headers, records and entries *)

Section Vocabulary.
Context `{PyFloat}.

(** Column [k] of a table, counted from 0: the [k]-th float of every row. *)
Definition column (rows : list (list float)) (k : Z) : option (list float) :=
  if (k <? 0)%Z then None else mapM (fun row => row !! Z.to_nat k) rows.

(** The channel [o] of a record is column [k] of the data rows. *)
Definition is_column (rows : list (list float)) (k : Z)
    (o : option (list float)) : Prop :=
  exists col, o = Some col /\ column rows k = Some col.

(** The header of bond [i]: [self._get_bond_data(contents[3+bond])]. *)
Definition header (contents : list string) (i : Z)
  : result (string * float * (Z * Z)) :=
  line ← Py.index contents (3 + i); Cohpcar._get_bond_data line.

(** The channels with their positions: [enumerate(spins)]. *)
Definition channels (flag : Z) : list (Z * Spin) :=
  Py.enumerate (Cohpcar.spins_of flag).

(** No header line after that of bond [i] gives the label [label]. *)
Definition later_labels_differ (contents : list string) (nb i : Z)
    (label : string) : Prop :=
  forall j label' len' st', (i < j < nb)%Z ->
    header contents j = Ok (label', len', st') -> label' <> label.

(** No condition on the header lines. *)
Definition any_labels (contents : list string) (nb i : Z) (label : string)
  : Prop := True.

(** The addressing scheme for a decoded file, when the columns are numbered
    from [first] on (the energy column has the number [first]): the record
    of bond [i] holds, for channel [s], the columns numbered
    [2*(i + s*(bondCount+1)) + 3] and [+ 4]; the record of the average holds
    the columns at [1 + 2*s*(bondCount+1)] and [2 + 2*s*(bondCount+1)] after
    the energy column. The record of bond [i] is the one found under its
    label, for the bonds whose header lines satisfy [labels_ok]. *)
Definition column_addressing (first : Z)
    (labels_ok : list string -> Z -> Z -> string -> Prop)
    (text : string) (obj : Cohpcar.t) : Prop :=
  let contents := Py.split Cohpcar.newline text in
  exists nb ef flag rows m,
    Cohpcar.read_parameters contents = Ok (nb, ef, flag)
    /\ Cohpcar.data_rows contents nb = Ok rows
    /\ Cohpcar.cohp_data obj = Some m
    /\ ((0 <= nb)%Z -> forall s spin, (s, spin) ∈ channels flag ->
        exists average,
          m !! "average" = Some average
          /\ is_column rows (1 + 2 * s * (nb + 1))
               (Cohpcar.COHP average !! spin)
          /\ is_column rows (2 + 2 * s * (nb + 1))
               (Cohpcar.ICOHP average !! spin))
    /\ (forall i s spin, (0 <= i < nb)%Z -> (s, spin) ∈ channels flag ->
        exists label len st,
          header contents i = Ok (label, len, st)
          /\ (labels_ok contents nb i label ->
              exists entry,
                m !! label = Some entry
                /\ is_column rows (2 * (i + s * (nb + 1)) + 3 - first)
                     (Cohpcar.COHP entry !! spin)
                /\ is_column rows (2 * (i + s * (nb + 1)) + 4 - first)
                     (Cohpcar.ICOHP entry !! spin))).

(** A record has exactly the channels [present], and its two sequences of
    every channel are as long as the energy grid. *)
Definition record_fits (grid : list float) (present : gset Spin)
    (entry : Cohpcar.BondCurveRecord) : Prop :=
  dom (Cohpcar.COHP entry) = present
  /\ dom (Cohpcar.ICOHP entry) = present
  /\ forall channel, channel ∈ present ->
       exists inst cum,
         Cohpcar.COHP entry !! channel = Some inst
         /\ Cohpcar.ICOHP entry !! channel = Some cum
         /\ length grid = length inst
         /\ length inst = length cum.

(** The keys of the bonds: those of [cohp_data] other than ["average"]. *)
Definition bond_keys (m : gmap string Cohpcar.BondCurveRecord) : gset string :=
  dom m ∖ {["average"]}.

(** The count of keys that the specification states: the keys of the bonds
    are as many as the header count minus one, and ["average"] is not a
    label of a header line. *)
Definition bond_keys_exact (text : string) (obj : Cohpcar.t) : Prop :=
  let contents := Py.split Cohpcar.newline text in
  exists nb ef flag m,
    Cohpcar.read_parameters contents = Ok (nb, ef, flag)
    /\ Cohpcar.cohp_data obj = Some m
    /\ Z.of_nat (size (bond_keys m)) = nb
    /\ forall i label len st,
         header contents i = Ok (label, len, st) -> label <> "average".

(** The entry of bond [b]: the label made of the second and third columns
    of line [b], with the length, the majority value and the multiplicity of
    its fourth, fifth and sixth columns and, in a spin polarized file, the
    minority value of the fifth column of line [b + num_bonds + 1]. *)
Definition summary_entry (data : list string) (num_bonds : Z)
    (polarized : bool) (b : Z)
  : result (string * Icohplist.BondSummaryRecord) :=
  row ← Py.index data b;
  let line := Py.split_ws row in
  elem1 ← Py.index line 1;
  elem2 ← Py.index line 2;
  c3 ← Py.index line 3;
  length ← py_float c3;
  c4 ← Py.index line 4;
  up ← py_float c4;
  c5 ← Py.index line 5;
  num ← Py.int c5;
  if polarized then
    row' ← Py.index data (b + num_bonds + 1);
    c4' ← Py.index (Py.split_ws row') 4;
    down ← py_float c4';
    Ok (elem1 ++ "-" ++ elem2,
        {| Icohplist.bond_length := length; Icohplist.number_of_bonds := num;
           Icohplist.icohp := <[Spin_down := down]> {[Spin_up := up]} |})
  else
    Ok (elem1 ++ "-" ++ elem2,
        {| Icohplist.bond_length := length; Icohplist.number_of_bonds := num;
           Icohplist.icohp := {[Spin_up := up]} |}).

(** The entries of the lines of the majority half, and what the dictionary
    of an instance keeps of them. *)
Definition keeps_last_entries (text : string) (obj : Icohplist.t) : Prop :=
  let data := Icohplist.data_lines text in
  exists nb polarized m entries,
    Icohplist.detect data = Ok (nb, polarized)
    /\ Icohplist.icohplist obj = Some m
    /\ Forall2 (fun b kv => summary_entry data nb polarized b = Ok kv)
               (Py.range nb) entries
    /\ (forall i label entry,
          entries !! i = Some (label, entry) ->
          (forall j kv, (i < j)%nat -> entries !! j = Some kv ->
                        kv.1 <> label) ->
          m !! label = Some entry)
    /\ (forall label entry,
          m !! label = Some entry -> (label, entry) ∈ entries)
    /\ (Z.of_nat (size m) <= nb)%Z
    /\ (Z.of_nat (size m) = nb <-> NoDup entries.*1).

(** What the line in the middle of the data lines decides, for a decoded
    file: if it contains [distance], the instance is spin polarized, the
    data lines are two halves of [num_bonds] lines around that line, and
    the minority value of bond [b] is the fifth column of line
    [b + num_bonds + 1]; otherwise the instance is not spin polarized and
    no record has a minority value. The entry of bond [b] is the one found
    under its label unless a later line gives the same label. *)
Definition detection_symmetric (text : string) (obj : Icohplist.t) : Prop :=
  let data := Icohplist.data_lines text in
  let half := Z.div (Py.len data) 2 in
  exists middle m,
    Py.index data half = Ok middle
    /\ Icohplist.icohplist obj = Some m
    /\ (Py.contains "distance" middle = true ->
        Icohplist.is_spin_polarized obj = Some true
        /\ Py.len data = (2 * half + 1)%Z
        /\ Py.len (take (Z.to_nat half) data) = half
        /\ Py.len (drop (Z.to_nat half + 1) data) = half
        /\ forall b, (0 <= b < half)%Z ->
             exists label entry row' c v,
               summary_entry data half true b = Ok (label, entry)
               /\ Py.index data (b + half + 1) = Ok row'
               /\ Py.index (Py.split_ws row') 4 = Ok c
               /\ py_float c = Ok v
               /\ Icohplist.icohp entry !! Spin_down = Some v
               /\ ((forall b' label' entry', (b < b' < half)%Z ->
                      summary_entry data half true b' = Ok (label', entry') ->
                      label' <> label) ->
                   m !! label = Some entry))
    /\ (Py.contains "distance" middle = false ->
        Icohplist.is_spin_polarized obj = Some false
        /\ forall label entry,
             m !! label = Some entry ->
             Icohplist.icohp entry !! Spin_down = None).

(** The data lines that the loop reads: those of the majority half and, in
    a spin polarized file, those of the minority half. *)
Definition lines_read (nb : Z) (polarized : bool) : list Z :=
  Py.range nb
  ++ (if polarized then (fun b => b + nb + 1)%Z <$> Py.range nb else []).

(** The failure condition that the specification states: a data line that
    is read has fewer than six columns. *)
Definition short_line_read (text : string) : Prop :=
  let data := Icohplist.data_lines text in
  exists nb polarized i row,
    Icohplist.detect data = Ok (nb, polarized)
    /\ i ∈ lines_read nb polarized
    /\ Py.index data i = Ok row
    /\ (length (Py.split_ws row) < 6)%nat.



End Vocabulary.

(** ** Header lines written out, columns of the lists *)




(** Column [k] of line [j], counted from 0: [data[j].split()[k]]. *)
Definition token_at (data : list string) (j k : Z) : result string :=
  row ← Py.index data j; Py.index (Py.split_ws row) k.

(** ** Files on which the readers are run *)

Module Examples.
Import DecimalFloat.

(** The lines of a text, joined by line ends. *)
Fixpoint unlines (lines : list string) : string :=
  match lines with
  | [] => ""
  | [l] => l
  | l :: ls => l ++ String Cohpcar.newline (unlines ls)
  end.

(** The instance that a construction returns, for texts that are decoded. *)
Definition instance_of {A} (default : A) (r : result A) : A :=
  match r with
  | Ok obj => obj
  | Raise _ => default
  end.

(** A COHPCAR file with one bond, one channel and three energies; the
    columns are the energy, the two of the average and the two of the
    bond. *)
Definition one_bond : string :=
  unlines ["COHPCAR";
           "2 1 3 -1.0 1.0 0.0";
           "Average";
           "No.1:Fe1->Fe9(2.5)";
           "-1.0 11.0 12.0 13.0 14.0";
           "0.0 21.0 22.0 23.0 24.0";
           "1.0 31.0 32.0 33.0 34.0"].

Definition one_bond_instance : Cohpcar.t :=
  Eval vm_compute in instance_of Cohpcar.fresh (Cohpcar.new false one_bond).

Definition one_bond_rows : list (list float) :=
  [[-1 # 1; 11 # 1; 12 # 1; 13 # 1; 14 # 1];
   [0 # 1; 21 # 1; 22 # 1; 23 # 1; 24 # 1];
   [1 # 1; 31 # 1; 32 # 1; 33 # 1; 34 # 1]].

(** A COHPCAR file with two bonds between the same two sites: both header
    lines give the label [Fe1-Fe1]. *)
Definition same_label : string :=
  unlines ["COHPCAR";
           "3 1 2 -1.0 0.0 0.0";
           "Average";
           "No.1:Fe1->Fe1(2.5)";
           "No.2:Fe1->Fe1(3.5)";
           "-1.0 1.0 2.0 3.0 4.0 5.0 6.0";
           "0.0 11.0 12.0 13.0 14.0 15.0 16.0"].

Definition same_label_rows : list (list float) :=
  [[-1 # 1; 1 # 1; 2 # 1; 3 # 1; 4 # 1; 5 # 1; 6 # 1];
   [0 # 1; 11 # 1; 12 # 1; 13 # 1; 14 # 1; 15 # 1; 16 # 1]].

Definition same_label_instance : Cohpcar.t :=
  Eval vm_compute in
    instance_of Cohpcar.fresh (Cohpcar.new false same_label).

(** A COHPCAR file with a header count of zero: the data rows start at the
    third line. *)
Definition no_bond (third : string) : string :=
  unlines ["COHPCAR"; "0 1 0.0"; third].

(** A spin polarized ICOHPLIST file of two bonds with the same label; the
    lines of the minority half have five columns. *)
Definition polarized : string :=
  unlines
    ["  COHP#  atomMU  atomNU     distance     translation      ICOHP (at) eF   for spin  1";
     "      1     Fe1     Fe9      2.5        -1.5   2";
     "      2     Fe1     Fe9      3.5        -2.5   4";
     "  COHP#  atomMU  atomNU     distance     translation      ICOHP (at) eF   for spin  2";
     "      1     Fe1     Fe9      2.5        -0.5";
     "      2     Fe1     Fe9      3.5        -4.5";
     ""].

Definition polarized_instance : Icohplist.t :=
  Eval vm_compute in
    instance_of Icohplist.fresh (Icohplist.new false polarized).

End Examples.

(** ** Files at the edges of the formats *)

Module EdgeCases.
Import DecimalFloat Examples.

(** The COHPCAR file [one_bond] under another title. *)
Definition one_bond_retitled : string :=
  unlines ["COOPCAR of another run";
           "2 1 3 -1.0 1.0 0.0";
           "Average";
           "No.1:Fe1->Fe9(2.5)";
           "-1.0 11.0 12.0 13.0 14.0";
           "0.0 21.0 22.0 23.0 24.0";
           "1.0 31.0 32.0 33.0 34.0"].

(** The COHPCAR file [one_bond] with a line end after its last line. *)
Definition one_bond_line_end : string :=
  one_bond ++ String Cohpcar.newline "".

(** The COHPCAR file [one_bond] with a header line of one site. *)
Definition one_site_header : string :=
  unlines ["COHPCAR";
           "2 1 3 -1.0 1.0 0.0";
           "Average";
           "No.1:Fe1(2.5)";
           "-1.0 11.0 12.0 13.0 14.0";
           "0.0 21.0 22.0 23.0 24.0";
           "1.0 31.0 32.0 33.0 34.0"].

(** A COHPCAR file of two lines whose header count is negative: the slice
    [contents[num_bonds+3:]] is [contents[-2:]], the whole file. *)
Definition negative_count (title : string) : string :=
  unlines [title; "-4 1 0.0"].

(** The lines of the ICOHPLIST file [polarized] between its first and its
    last line. *)
Definition polarized_lines : list string :=
  ["      1     Fe1     Fe9      2.5        -1.5   2";
   "      2     Fe1     Fe9      3.5        -2.5   4";
   "  COHP#  atomMU  atomNU     distance     translation      ICOHP (at) eF   for spin  2";
   "      1     Fe1     Fe9      2.5        -0.5";
   "      2     Fe1     Fe9      3.5        -4.5"].

(** The same lines under another first line and before a last line that is
    not empty. *)
Definition polarized_framed : string :=
  unlines ("ICOOPLIST" :: polarized_lines ++ ["end of the list"])%list.

(** The ICOHPLIST file [polarized] with other first columns and with more
    columns on the lines of its majority half, and with other bonds, lengths
    and columns on the lines of its minority half. *)
Definition polarized_other_columns : string :=
  unlines
    ["  COHP#  atomMU  atomNU     distance     translation      ICOHP (at) eF   for spin  1";
     "     11     Fe1     Fe9      2.5        -1.5   2   more";
     "     12     Fe1     Fe9      3.5        -2.5   4";
     "  the distance, once more";
     "      7     Zn3     O17      9.5        -0.5   1   more";
     "      x     y       z        w          -4.5";
     ""].

(** A COHPCAR file whose parameters line has one token. *)
Definition one_parameter : string :=
  unlines ["COHPCAR"; "2"; "Average"; "0.0 1.0 2.0"].

End EdgeCases.

(** * Properties *)

(** ** Results, loops and comprehensions *)

Lemma bind_Ok {A B} (m : result A) (f : A -> result B) (b : B) :
  m ≫= f = Ok b <-> exists a, m = Ok a /\ f a = Ok b.
Proof.
  destruct m as [a|e]; simpl; split.
  - intros Hf. exists a. auto.
  - intros (a' & Ha & Hf). congruence.
  - discriminate.
  - intros (a' & Ha & _). discriminate.
Qed.

Lemma bind_Raise {A B} (m : result A) (f : A -> result B) :
  is_Raise m -> is_Raise (m ≫= f).
Proof. intros [e ->]. exists e. reflexivity. Qed.



(** Splits a hypothesis [(x ← m; k) = Ok r] into [m = Ok x] and
    [k = Ok r]. *)
Tactic Notation "bind_inv" hyp(H) "as" ident(x) ident(Hx) :=
  apply bind_Ok in H; destruct H as (x & Hx & H); simpl in H.
Tactic Notation "bind_inv" hyp(H) :=
  let x := fresh "x" in
  let Hx := fresh "H" x in
  bind_inv H as x Hx.

Lemma foldM_app {A B} (body : B -> A -> result B) (acc : B) (xs ys : list A) :
  foldM body acc (xs ++ ys) = acc' ← foldM body acc xs; foldM body acc' ys.
Proof.
  revert acc. induction xs as [|x xs IH]; intros acc; simpl; [reflexivity|].
  destruct (body acc x) as [acc'|e]; simpl; [apply IH | reflexivity].
Qed.

Lemma foldM_ext {A B} (f g : B -> A -> result B) (acc : B) (xs : list A) :
  (forall b x, x ∈ xs -> f b x = g b x) -> foldM f acc xs = foldM g acc xs.
Proof.
  revert acc. induction xs as [|x xs IH]; intros acc Hfg; simpl; [reflexivity|].
  rewrite Hfg by left. destruct (g acc x) as [acc'|e]; simpl; [|reflexivity].
  apply IH. intros b y Hy. apply Hfg. right. exact Hy.
Qed.

(** A loop raises as soon as one of its iterations raises in every state. *)
Lemma foldM_Raise {A B} (body : B -> A -> result B) (acc : B) (xs : list A) x :
  x ∈ xs -> (forall b, is_Raise (body b x)) -> is_Raise (foldM body acc xs).
Proof.
  revert acc. induction xs as [|y xs IH]; intros acc Hx Hbody.
  - inversion Hx.
  - simpl. apply elem_of_cons in Hx as [->|Hx].
    + apply bind_Raise, Hbody.
    + destruct (body acc y) as [acc'|e]; simpl; [auto | exists e; reflexivity].
Qed.

Lemma foldM_insert {A K V} `{Countable K} (entry : A -> result (K * V))
    (m0 m : gmap K V) (xs : list A) :
  foldM (fun m x => '(k, v) ← entry x; Ok (<[k := v]> m)) m0 xs = Ok m ->
  exists entries, Forall2 (fun x kv => entry x = Ok kv) xs entries
                  /\ m = insert_entries m0 entries.
Proof.
  revert m0. induction xs as [|x xs IH]; intros m0 Hm; simpl in Hm.
  - exists []. simplify_eq. split; [constructor | reflexivity].
  - bind_inv Hm as m1 Hm1. bind_inv Hm1 as kv Hkv. destruct kv as [k v].
    simplify_eq. destruct (IH _ Hm) as (entries & Hall & ->).
    exists ((k, v) :: entries).
    split; [constructor; assumption | reflexivity].
Qed.

Lemma insert_entries_snoc {K V} `{Countable K} (m : gmap K V) entries k v :
  insert_entries m (entries ++ [(k, v)]) = <[k := v]> (insert_entries m entries).
Proof. unfold insert_entries. rewrite fold_left_app. reflexivity. Qed.

Lemma dom_insert_entries {K V} `{Countable K} (m : gmap K V) entries :
  dom (insert_entries m entries) = dom m ∪ list_to_set entries.*1.
Proof.
  revert m. induction entries as [|[k v] entries IH]; intros m; simpl.
  - set_solver.
  - unfold insert_entries in *. simpl. rewrite IH, dom_insert_L. set_solver.
Qed.

(** The entry found under a key is the last one inserted with it. *)
Lemma lookup_insert_entries_last {K V} `{Countable K} (m : gmap K V)
    entries i k v :
  entries !! i = Some (k, v) ->
  (forall j kv, (i < j)%nat -> entries !! j = Some kv -> kv.1 <> k) ->
  insert_entries m entries !! k = Some v.
Proof.
  revert i. induction entries as [|[k' v'] entries IH] using rev_ind;
    intros i Hi Hlast.
  - discriminate.
  - rewrite insert_entries_snoc.
    destruct (decide (i = length entries)) as [->|Hne].
    + rewrite lookup_app_r, Nat.sub_diag in Hi by lia. simpl in Hi.
      simplify_eq. apply lookup_insert_eq.
    + assert (i < length entries)%nat as Hlt.
      { apply lookup_lt_Some in Hi. rewrite length_app in Hi. simpl in Hi. lia. }
      rewrite lookup_app_l in Hi by assumption.
      assert (k' <> k) as Hk.
      { apply (Hlast (length entries) (k', v')); [assumption|].
        rewrite lookup_app_r, Nat.sub_diag by lia. reflexivity. }
      rewrite lookup_insert_ne by assumption.
      apply (IH i); [assumption|].
      intros j kv Hj Hkv. apply (Hlast j kv Hj).
      rewrite lookup_app_l; [assumption|]. apply lookup_lt_Some in Hkv. assumption.
Qed.

Lemma lookup_insert_entries_other {K V} `{Countable K} (m : gmap K V)
    entries k :
  k ∉ entries.*1 -> insert_entries m entries !! k = m !! k.
Proof.
  revert m. induction entries as [|[k' v'] entries IH]; intros m Hk; simpl.
  - reflexivity.
  - unfold insert_entries in *. simpl. rewrite IH by set_solver.
    apply lookup_insert_ne. set_solver.
Qed.

(** Every entry of the final dictionary is an initial one or an inserted
    one. *)
Lemma lookup_insert_entries_inv {K V} `{Countable K} (m : gmap K V)
    entries k v :
  insert_entries m entries !! k = Some v ->
  ((k, v) ∈ entries) \/ ((k ∉ entries.*1) /\ m !! k = Some v).
Proof.
  induction entries as [|[k' v'] entries IH] using rev_ind; intros Hk.
  - right. split; [set_solver | exact Hk].
  - rewrite insert_entries_snoc in Hk.
    destruct (decide (k' = k)) as [->|Hne].
    + rewrite lookup_insert_eq in Hk. simplify_eq. left. set_solver.
    + rewrite lookup_insert_ne in Hk by assumption.
      destruct (IH Hk) as [Hin|[Hnot Hm]]; [left; set_solver | right].
      split; [|assumption]. rewrite fmap_app. set_solver.
Qed.
Lemma size_list_to_set_le `{Countable K} (l : list K) :
  (size (list_to_set l : gset K) <= length l)%nat.
Proof.
  induction l as [|k l IH].
  - rewrite list_to_set_nil, size_empty. simpl. lia.
  - rewrite list_to_set_cons. cbn [length]. destruct (decide (k ∈ l)) as [Hin|Hnot].
    + replace ({[k]} ∪ list_to_set l : gset K) with (list_to_set l : gset K)
        by set_solver. lia.
    + rewrite size_union by set_solver. rewrite size_singleton. lia.
Qed.

Lemma size_list_to_set_NoDup `{Countable K} (l : list K) :
  size (list_to_set l : gset K) = length l <-> NoDup l.
Proof.
  split; [|apply size_list_to_set].
  induction l as [|k l IH]; intros Hsize; [constructor|].
  rewrite list_to_set_cons in Hsize. cbn [length] in Hsize.
  destruct (decide (k ∈ l)) as [Hin|Hnot].
  - replace ({[k]} ∪ list_to_set l : gset K) with (list_to_set l : gset K)
      in Hsize by set_solver.
    pose proof (size_list_to_set_le l). lia.
  - rewrite size_union, size_singleton in Hsize by set_solver.
    constructor; [assumption | apply IH; lia].
Qed.

(** ** The example files, decoded *)

Module ExampleFacts.
Import DecimalFloat Examples.

Lemma one_bond_decodes : Cohpcar.new false one_bond = Ok one_bond_instance.
Proof. reflexivity. Qed.

Lemma one_bond_parameters :
  Cohpcar.read_parameters (Py.split Cohpcar.newline one_bond)
  = Ok (1%Z, (0 # 1) : float, 1%Z).
Proof. reflexivity. Qed.

Lemma one_bond_data_rows :
  Cohpcar.data_rows (Py.split Cohpcar.newline one_bond) 1 = Ok one_bond_rows.
Proof. reflexivity. Qed.

Lemma one_bond_header :
  header (Py.split Cohpcar.newline one_bond) 0
  = Ok ("Fe1-Fe9", (5 # 2) : float, (0, 8)%Z).
Proof. reflexivity. Qed.

Lemma one_bond_instantaneous entry :
  Cohpcar.cohp_data one_bond_instance ≫= (.!! "Fe1-Fe9") = Some entry ->
  Cohpcar.COHP entry !! Spin_up
  = Some ([13 # 1; 23 # 1; 33 # 1] : list float).
Proof. intros [= <-]. reflexivity. Qed.

Lemma same_label_decodes :
  Cohpcar.new false same_label = Ok same_label_instance.
Proof. reflexivity. Qed.

Lemma same_label_parameters :
  Cohpcar.read_parameters (Py.split Cohpcar.newline same_label)
  = Ok (2%Z, (0 # 1) : float, 1%Z).
Proof. reflexivity. Qed.

Lemma same_label_data_rows :
  Cohpcar.data_rows (Py.split Cohpcar.newline same_label) 2
  = Ok same_label_rows.
Proof. reflexivity. Qed.

Lemma same_label_header :
  header (Py.split Cohpcar.newline same_label) 0
  = Ok ("Fe1-Fe1", (5 # 2) : float, (0, 0)%Z).
Proof. reflexivity. Qed.

Lemma same_label_instantaneous entry :
  Cohpcar.cohp_data same_label_instance ≫= (.!! "Fe1-Fe1") = Some entry ->
  Cohpcar.COHP entry !! Spin_up = Some ([5 # 1; 15 # 1] : list float).
Proof. intros [= <-]. reflexivity. Qed.

Lemma same_label_one_key m :
  Cohpcar.cohp_data same_label_instance = Some m ->
  size (bond_keys m) = 1%nat.
Proof. intros [= <-]. reflexivity. Qed.

Lemma no_bond_energies_1 :
  Cohpcar.energies <$> Cohpcar.new false (no_bond "1.0 2.0 3.0")
  = Ok (Some ([1 # 1] : list float)).
Proof. reflexivity. Qed.

Lemma no_bond_energies_5 :
  Cohpcar.energies <$> Cohpcar.new false (no_bond "5.0 2.0 3.0")
  = Ok (Some ([5 # 1] : list float)).
Proof. reflexivity. Qed.

Lemma polarized_decodes :
  Icohplist.new false polarized = Ok polarized_instance.
Proof. reflexivity. Qed.

End ExampleFacts.

(** ** The built-ins on sample inputs *)

Example split_ws_sample :
  Py.split_ws "  22    2  401 -14.02   6.0 " = ["22"; "2"; "401"; "-14.02"; "6.0"].
Proof. reflexivity. Qed.

Example split_sample : Py.split "(" "a(b((c" = ["a"; "b"; ""; "c"].
Proof. reflexivity. Qed.

Example re_split_sample :
  Py.re_split (fun c => negb (Py.is_digit c)) "Fe12" = [""; "12"]
  /\ Py.re_split Py.is_digit "Fe12" = ["Fe"; ""]
  /\ Py.re_split (fun c => negb (Py.is_digit c)) "Fe" = [""; ""].
Proof. repeat split. Qed.

Example int_sample :
  Py.int " -012 " = Ok (-12)%Z /\ Py.int "" = Raise ValueError
  /\ Py.int "1.0" = Raise ValueError /\ Py.int "- 1" = Raise ValueError.
Proof. repeat split. Qed.

Example int_space_sample :
  Py.int (String (ascii_of_nat 160) "12 ") = Ok 12%Z
  /\ Py.int (String (ascii_of_nat 28) "7") = Raise ValueError.
Proof. repeat split. Qed.

Example int_underscore_sample :
  Py.int "0_0" = Ok 0%Z /\ Py.int "-0_4" = Ok (-4)%Z
  /\ Py.int "1_000" = Ok 1000%Z /\ Py.int "_1" = Raise ValueError
  /\ Py.int "1_" = Raise ValueError /\ Py.int "1__0" = Raise ValueError
  /\ Py.int "-_1" = Raise ValueError.
Proof. repeat split. Qed.

Example slice_sample :
  Py.slice ["h"; "a"; "b"; ""] 1 (-1) = ["a"; "b"]
  /\ Py.slice ["No.4"; "Fe1"; "Fe9"; "Zn3"] 1 3 = ["Fe1"; "Fe9"]
  /\ Py.slice_from ["t"; "p"; "x"] (-1 + 3) = ["x"]
  /\ Py.index ["t"; "p"; "x"] (-1) = Ok "x".
Proof. repeat split. Qed.

Example replace_arrow_sample :
  Py.replace_arrow "No.4:Fe1->Fe9" = "No.4:Fe1:Fe9".
Proof. reflexivity. Qed.

(** ** The header-line parser *)

Section BondHeader.
Context `{PyFloat}.

(** C3. Decoding the header line [No.4:Fe1->Fe9(2.4524893531900283)] gives
    the label [Fe1-Fe9], the length that [float] reads in
    [2.4524893531900283], and the zero-based site indices [(0, 8)]. *)
Theorem get_bond_data_round_trip (x : float) :
  py_float "2.4524893531900283" = Ok x ->
  Cohpcar._get_bond_data "No.4:Fe1->Fe9(2.4524893531900283)"
  = Ok ("Fe1-Fe9", x, (0, 8)%Z).
Proof.
  intros Hx. unfold Cohpcar._get_bond_data.
  change (Py.split "(" "No.4:Fe1->Fe9(2.4524893531900283)")
    with ["No.4:Fe1->Fe9"; "2.4524893531900283)"].
  change (Py.index ["No.4:Fe1->Fe9"; "2.4524893531900283)"] (-1))
    with (Ok (A:=string) "2.4524893531900283)").
  cbn [mbind result_bind].
  change (Py.drop_last "2.4524893531900283)") with "2.4524893531900283".
  rewrite Hx. reflexivity.
Qed.

End BondHeader.

(** The same line under the reading of decimal literals. *)
Lemma get_bond_data_round_trip_witness :
  py_float (PyFloat := DecimalFloat.decimal) "2.4524893531900283"
  = Ok (Qred (24524893531900283 # 10000000000000000))
  /\ Cohpcar._get_bond_data (H := DecimalFloat.decimal)
       "No.4:Fe1->Fe9(2.4524893531900283)"
     = Ok ("Fe1-Fe9", Qred (24524893531900283 # 10000000000000000), (0, 8)%Z).
Proof.
  split; [reflexivity|].
  apply (get_bond_data_round_trip (H := DecimalFloat.decimal)). reflexivity.
Defined.

(** ** Arrays: the columns of a table of rows *)

Section Columns.
Context `{PyFloat}.

Lemma array_inv (rows arr : list (list float)) :
  Np.array rows = Ok arr ->
  arr = rows /\ exists c, Forall (fun r => length r = c) rows.
Proof.
  destruct rows as [|r rs]; simpl.
  - intros [= <-]. split; [reflexivity | exists 0%nat; constructor].
  - destruct (forallb _ rs) eqn:Hall; [|discriminate]. intros [= <-].
    split; [reflexivity|]. exists (length r). constructor; [reflexivity|].
    apply Forall_forall. intros r' Hr'.
    rewrite forallb_forall in Hall. apply Nat.eqb_eq, Hall.
    apply list_elem_of_In. exact Hr'.
Qed.

Lemma transpose_go_lengths (c : nat) (rows : list (list float)) :
  Forall (fun col => length col = length rows) (Np.transpose_go c rows).
Proof.
  induction rows as [|r rs IH]; simpl.
  - apply Forall_forall. intros col Hcol.
    apply elem_of_replicate in Hcol as [-> _]. reflexivity.
  - revert IH. generalize (Np.transpose_go c rs). intros cols IH.
    revert r. induction IH as [|col cols Hcol _ IHcols]; intros [|x r]; simpl;
      constructor; simpl; auto.
Qed.

Lemma transpose_go_lookup (c k : nat) (rows : list (list float)) :
  Forall (fun r => length r = c) rows -> (k < c)%nat ->
  Np.transpose_go c rows !! k = mapM (fun row => row !! k) rows.
Proof.
  intros Hrect Hk. induction Hrect as [|r rs Hr _ IH]; simpl.
  - apply lookup_replicate_2. exact Hk.
  - rewrite lookup_zip_with, IH.
    destruct (r !! k) as [x|]; simpl; [|reflexivity].
    destruct (mapM _ rs) as [col|]; reflexivity.
Qed.

Lemma transpose_go_length (c : nat) (rows : list (list float)) :
  Forall (fun r => length r = c) rows -> length (Np.transpose_go c rows) = c.
Proof.
  induction 1 as [|r rs Hr _ IH]; simpl.
  - apply length_replicate.
  - rewrite length_zip_with, IH, Hr. lia.
Qed.

(** Every element of the transposed array is a column of the rows, and all
    of them are as long as the table. *)
Lemma transpose_index (rows arr : list (list float)) (k : Z) col :
  Np.array rows = Ok arr -> (0 <= k)%Z ->
  Py.index (Np.transpose arr) k = Ok col -> column rows k = Some col.
Proof.
  intros Harr Hk Hcol. apply array_inv in Harr as [-> [c Hrect]].
  unfold Py.index in Hcol. unfold column.
  destruct (k <? 0)%Z eqn:Hneg; [lia|]. rewrite Hneg in Hcol.
  destruct (Np.transpose rows !! Z.to_nat k) as [col'|] eqn:Hlook;
    [|discriminate].
  injection Hcol as ->. destruct rows as [|r rs]; [discriminate|].
  unfold Np.transpose in Hlook.
  assert (c = length r) as -> by (inversion Hrect; congruence).
  rewrite <- (transpose_go_lookup (length r)); [exact Hlook | exact Hrect |].
  apply lookup_lt_Some in Hlook.
  rewrite transpose_go_length in Hlook by exact Hrect. exact Hlook.
Qed.

Lemma transpose_lengths (rows : list (list float)) :
  Forall (fun col => length col = length rows) (Np.transpose rows).
Proof.
  destruct rows as [|r rs]; [constructor|]. apply transpose_go_lengths.
Qed.

Lemma index_elem_of {A} (l : list A) (i : Z) (x : A) :
  Py.index l i = Ok x -> x ∈ l.
Proof.
  unfold Py.index. destruct (_ <? 0)%Z; [discriminate|].
  destruct (l !! _) as [y|] eqn:Hy; [|discriminate]. intros [= <-].
  eapply list_elem_of_lookup_2. exact Hy.
Qed.

Lemma index_nonneg {A} (l : list A) (i : Z) :
  (0 <= i)%Z ->
  Py.index l i = match l !! Z.to_nat i with
                 | Some x => Ok x
                 | None => Raise IndexError
                 end.
Proof.
  intros Hi. unfold Py.index.
  destruct (i <? 0)%Z eqn:Hneg; [lia|]. rewrite Hneg. reflexivity.
Qed.

End Columns.

(** ** The reader of COHPCAR files *)

Section CohpcarFacts.
Context `{PyFloat}.

Lemma mem_char_app (c : ascii) (s1 s2 : string) :
  mem_char c (s1 ++ s2) = mem_char c s1 || mem_char c s2.
Proof.
  induction s1 as [|c' s1 IH]; simpl; [reflexivity|].
  rewrite IH. apply orb_assoc.
Qed.

Lemma get_bond_data_label line label len st :
  Cohpcar._get_bond_data line = Ok (label, len, st) ->
  mem_char "-" label = true.
Proof.
  unfold Cohpcar._get_bond_data. intros Hline.
  repeat bind_inv Hline. injection Hline as <- _ _.
  rewrite !mem_char_app. simpl. rewrite !orb_true_r. reflexivity.
Qed.

Lemma get_bond_data_not_average line label len st :
  Cohpcar._get_bond_data line = Ok (label, len, st) -> label <> "average".
Proof.
  intros Hline ->. apply get_bond_data_label in Hline. discriminate.
Qed.

Lemma bond_entry_inv contents spins nb data i label entry :
  Cohpcar.bond_entry contents spins nb data i = Ok (label, entry) ->
  exists len st cohp icohp,
    header contents i = Ok (label, len, st)
    /\ Cohpcar.spin_dict spins
         (fun s => 2 * (i + s * (nb + 1)) + 3)%Z data = Ok cohp
    /\ Cohpcar.spin_dict spins
         (fun s => 2 * (i + s * (nb + 1)) + 4)%Z data = Ok icohp
    /\ entry = {| Cohpcar.COHP := cohp; Cohpcar.ICOHP := icohp;
                  Cohpcar.bond_length := Some len;
                  Cohpcar.sites := Some st |}.
Proof.
  unfold Cohpcar.bond_entry, header. intros Hentry.
  bind_inv Hentry as line Hline. bind_inv Hentry as hd Hhd.
  destruct hd as [[label' len] st].
  bind_inv Hentry as cohp Hcohp. bind_inv Hentry as icohp Hicohp.
  injection Hentry as <- <-.
  exists len, st, cohp, icohp. rewrite Hline. simpl. auto.
Qed.

Lemma spin_dict_lookup flag column data d s spin :
  Cohpcar.spin_dict (Cohpcar.spins_of flag) column data = Ok d ->
  (s, spin) ∈ channels flag ->
  exists col, Py.index data (column s) = Ok col /\ d !! spin = Some col.
Proof.
  unfold Cohpcar.spin_dict, channels, Cohpcar.spins_of.
  destruct (flag =? 2)%Z; simpl; intros Hd Hs.
  - bind_inv Hd as d0 Hd0. bind_inv Hd0 as c0 Hc0.
    bind_inv Hd as d1 Hd1. bind_inv Hd1 as c1 Hc1.
    injection Hd0 as <-. injection Hd1 as <-. injection Hd as <-.
    apply elem_of_cons in Hs as [[= -> ->]|Hs].
    + exists c0. split; [assumption|].
      rewrite lookup_insert_ne by discriminate. apply lookup_insert_eq.
    + apply list_elem_of_singleton in Hs as [= -> ->].
      exists c1. split; [assumption | apply lookup_insert_eq].
  - bind_inv Hd as d0 Hd0. bind_inv Hd0 as c0 Hc0.
    injection Hd0 as <-. injection Hd as <-.
    apply list_elem_of_singleton in Hs as [= -> ->].
    exists c0. split; [assumption | apply lookup_insert_eq].
Qed.

Lemma spin_dict_dom flag column data d :
  Cohpcar.spin_dict (Cohpcar.spins_of flag) column data = Ok d ->
  dom d = list_to_set (Cohpcar.spins_of flag).
Proof.
  unfold Cohpcar.spin_dict, Cohpcar.spins_of.
  destruct (flag =? 2)%Z; simpl; intros Hd.
  - bind_inv Hd as d0 Hd0. bind_inv Hd0 as c0 Hc0.
    bind_inv Hd as d1 Hd1. bind_inv Hd1 as c1 Hc1.
    injection Hd0 as <-. injection Hd1 as <-. injection Hd as <-.
    rewrite !dom_insert_L, dom_empty_L. set_solver.
  - bind_inv Hd as d0 Hd0. bind_inv Hd0 as c0 Hc0.
    injection Hd0 as <-. injection Hd as <-.
    rewrite !dom_insert_L, dom_empty_L. set_solver.
Qed.

Lemma spin_dict_values flag column data d spin col :
  Cohpcar.spin_dict (Cohpcar.spins_of flag) column data = Ok d ->
  d !! spin = Some col -> col ∈ data.
Proof.
  unfold Cohpcar.spin_dict, Cohpcar.spins_of.
  destruct (flag =? 2)%Z; simpl; intros Hd Hspin.
  - bind_inv Hd as d0 Hd0. bind_inv Hd0 as c0 Hc0.
    bind_inv Hd as d1 Hd1. bind_inv Hd1 as c1 Hc1.
    injection Hd0 as <-. injection Hd1 as <-. injection Hd as <-.
    apply lookup_insert_Some in Hspin as [[_ <-]|[_ Hspin]];
      [eapply index_elem_of; eassumption|].
    apply lookup_insert_Some in Hspin as [[_ <-]|[_ Hspin]];
      [eapply index_elem_of; eassumption|].
    rewrite lookup_empty in Hspin. discriminate.
  - bind_inv Hd as d0 Hd0. bind_inv Hd0 as c0 Hc0.
    injection Hd0 as <-. injection Hd as <-.
    apply lookup_insert_Some in Hspin as [[_ <-]|[_ Hspin]];
      [eapply index_elem_of; eassumption|].
    rewrite lookup_empty in Hspin. discriminate.
Qed.

Lemma read_data_inv contents nb data :
  Cohpcar.read_data contents nb = Ok data ->
  exists rows,
    Cohpcar.data_rows contents nb = Ok rows
    /\ (forall k col, (0 <= k)%Z ->
          Py.index data k = Ok col -> column rows k = Some col)
    /\ Forall (fun col => length col = length rows) data.
Proof.
  unfold Cohpcar.read_data. intros Hdata.
  bind_inv Hdata as rows Hrows. bind_inv Hdata as arr Harr.
  injection Hdata as <-.
  exists rows. split; [assumption|]. split.
  - intros k col Hk Hcol. eapply transpose_index; eassumption.
  - apply array_inv in Harr as [-> _]. apply transpose_lengths.
Qed.

(** What a successful construction has computed. *)
Lemma new_inv ac text obj :
  Cohpcar.new ac text = Ok obj ->
  let contents := Py.split Cohpcar.newline text in
  exists nb ef flag data column0 average entries,
    Cohpcar.read_parameters contents = Ok (nb, ef, flag)
    /\ Cohpcar.read_data contents nb = Ok data
    /\ Py.index data 0 = Ok column0
    /\ Cohpcar.average_entry (Cohpcar.spins_of flag) nb data = Ok average
    /\ Forall2 (fun i kv =>
                  Cohpcar.bond_entry contents (Cohpcar.spins_of flag) nb data i
                  = Ok kv) (Py.range nb) entries
    /\ obj = {| Cohpcar.are_coops := Some ac;
                Cohpcar.efermi := Some ef;
                Cohpcar.is_spin_polarized := Some (flag =? 2)%Z;
                Cohpcar.energies := Some column0;
                Cohpcar.cohp_data :=
                  Some (insert_entries {["average" := average]} entries) |}.
Proof.
  intros Hobj contents. unfold Cohpcar.new, Cohpcar.__init__ in Hobj.
  fold contents in Hobj. bind_inv Hobj as params Hparams.
  destruct params as [[nb ef] flag]. unfold Cohpcar.decode in Hobj.
  bind_inv Hobj as data Hdata. bind_inv Hobj as column0 Hcolumn0.
  bind_inv Hobj as average Haverage. bind_inv Hobj as m Hm.
  apply foldM_insert in Hm as (entries & Hentries & ->).
  injection Hobj as <-.
  exists nb, ef, flag, data, column0, average, entries. auto 10.
Qed.

Lemma entries_not_average contents spins nb data (bonds : list Z) entries :
  Forall2 (fun i kv => Cohpcar.bond_entry contents spins nb data i = Ok kv)
          bonds entries ->
  "average" ∉ entries.*1.
Proof.
  induction 1 as [|i [label entry] bonds entries Hi _ IH]; simpl.
  - apply not_elem_of_nil.
  - apply not_elem_of_cons. split; [|exact IH].
    simpl in Hi.
    apply bond_entry_inv in Hi as (len & st & cohp & icohp & Hheader & _).
    unfold header in Hheader. bind_inv Hheader as line Hline.
    intros Heq. symmetry in Heq. revert Heq.
    eapply get_bond_data_not_average. eassumption.
Qed.

End CohpcarFacts.

(** ** The addressing of the columns *)

Section ColumnAddressing.
Context `{PyFloat}.

Lemma channels_position flag s spin :
  (s, spin) ∈ channels flag -> (0 <= s <= 1)%Z.
Proof.
  unfold channels, Cohpcar.spins_of. destruct (flag =? 2)%Z; simpl.
  - intros Hs. apply elem_of_cons in Hs as [[= -> ->]|Hs]; [lia|].
    apply list_elem_of_singleton in Hs as [= -> ->]. lia.
  - intros Hs. apply list_elem_of_singleton in Hs as [= -> ->]. lia.
Qed.

Lemma range_lookup (n i : Z) :
  (0 <= i < n)%Z -> Py.range n !! Z.to_nat i = Some i.
Proof.
  intros Hi. unfold Py.range. rewrite lookup_seqZ. split; lia.
Qed.

Lemma range_lookup_inv (n : Z) (j : nat) (b : Z) :
  Py.range n !! j = Some b -> b = Z.of_nat j /\ (0 <= b < n)%Z.
Proof. unfold Py.range. rewrite lookup_seqZ. lia. Qed.

Lemma spin_dict_column flag offset data rows d s spin :
  (forall k col, (0 <= k)%Z ->
     Py.index data k = Ok col -> column rows k = Some col) ->
  Cohpcar.spin_dict (Cohpcar.spins_of flag) offset data = Ok d ->
  (s, spin) ∈ channels flag -> (0 <= offset s)%Z ->
  is_column rows (offset s) (d !! spin).
Proof.
  intros Hcolumns Hd Hs Hoffset.
  destruct (spin_dict_lookup _ _ _ _ _ _ Hd Hs) as (col & Hcol & Hspin).
  exists col. split; [exact Hspin | apply Hcolumns; assumption].
Qed.

(** C1, as the code has it. For every decoded file the columns are addressed
    as the specification says when they are counted from 0, the energy
    column being column 0: bond [i] and channel [s] use the columns
    [2*(i + s*(bondCount+1)) + 3] and [+ 4], the average uses the columns
    [1 + 2*s*(bondCount+1)] and [2 + 2*s*(bondCount+1)]; the record of bond
    [i] is found under its label when no later header line gives the same
    label. *)
Theorem column_addressing_from_zero ac text obj :
  Cohpcar.new ac text = Ok obj ->
  column_addressing 0 later_labels_differ text obj.
Proof.
  intros Hobj. apply new_inv in Hobj. simpl in Hobj.
  destruct Hobj as (nb & ef & flag & data & column0 & average & entries
                    & Hparams & Hdata & Hcolumn0 & Haverage & Hentries & ->).
  destruct (read_data_inv _ _ _ Hdata) as (rows & Hrows & Hcolumns & _).
  exists nb, ef, flag, rows, (insert_entries {["average" := average]} entries).
  split; [exact Hparams|]. split; [exact Hrows|]. split; [reflexivity|].
  split.
  - intros Hnb s spin Hs. exists average.
    pose proof (channels_position _ _ _ Hs) as Hpos.
    split.
    { rewrite lookup_insert_entries_other
        by (eapply entries_not_average; eassumption).
      apply lookup_singleton_eq. }
    unfold Cohpcar.average_entry in Haverage.
    bind_inv Haverage as cohp Hcohp. bind_inv Haverage as icohp Hicohp.
    injection Haverage as <-. simpl.
    split.
    + apply (spin_dict_column flag
               (fun s => 1 + 2 * s * (nb + 1))%Z data); auto. nia.
    + apply (spin_dict_column flag
               (fun s => 2 + 2 * s * (nb + 1))%Z data); auto. nia.
  - intros i s spin Hi Hs.
    pose proof (channels_position _ _ _ Hs) as Hpos.
    destruct (Forall2_lookup_l _ _ _ _ _ Hentries (range_lookup nb i Hi))
      as ([label entry] & Hlookup & Hentry).
    apply bond_entry_inv in Hentry
      as (len & st & cohp & icohp & Hheader & Hcohp & Hicohp & ->).
    exists label, len, st. split; [exact Hheader|].
    intros Hlater. unfold later_labels_differ in Hlater. eexists. split.
    { eapply lookup_insert_entries_last; [exact Hlookup|].
      intros j [label' entry'] Hj Hlookup'.
      destruct (Forall2_lookup_r _ _ _ _ _ Hentries Hlookup')
        as (b & Hb & Hentry').
      apply range_lookup_inv in Hb as [-> Hb].
      apply bond_entry_inv in Hentry'
        as (len' & st' & _ & _ & Hheader' & _).
      simpl. eapply Hlater; [|exact Hheader']. lia. }
    simpl. rewrite !Z.sub_0_r. split.
    + apply (spin_dict_column flag
               (fun s => 2 * (i + s * (nb + 1)) + 3)%Z data); auto. nia.
    + apply (spin_dict_column flag
               (fun s => 2 * (i + s * (nb + 1)) + 4)%Z data); auto. nia.
Qed.

End ColumnAddressing.

(** C1, witness: the addressing from 0 on the file with one bond. *)
Lemma column_addressing_from_zero_witness :
  Cohpcar.new false Examples.one_bond = Ok Examples.one_bond_instance
  /\ column_addressing 0 (later_labels_differ (H := DecimalFloat.decimal))
       Examples.one_bond Examples.one_bond_instance.
Proof.
  split; [exact ExampleFacts.one_bond_decodes|].
  apply (column_addressing_from_zero false). exact ExampleFacts.one_bond_decodes.
Defined.

(** With the energy column numbered 1, the column numbered
    [2*(0 + 0*(1+1)) + 3 = 3] of the file with one bond is the cumulative
    column of the average, not the instantaneous column of bond 0. *)
Lemma numbering_from_one_fails :
  ~ column_addressing 1 any_labels
      Examples.one_bond Examples.one_bond_instance.
Proof.
  intros (nb & ef & flag & rows & m & Hparams & Hrows & Hm & _ & Hbonds).
  rewrite ExampleFacts.one_bond_parameters in Hparams.
  injection Hparams as <- <- <-.
  rewrite ExampleFacts.one_bond_data_rows in Hrows. injection Hrows as <-.
  destruct (Hbonds 0%Z 0%Z Spin_up) as (label & len & st & Hheader & Hentry).
  { lia. }
  { left. }
  rewrite ExampleFacts.one_bond_header in Hheader. injection Hheader as <- <- <-.
  destruct (Hentry I) as (entry & Hlookup & (col & Hcohp & Hcol) & _).
  pose proof (ExampleFacts.one_bond_instantaneous entry) as Hinst.
  rewrite Hm in Hinst. specialize (Hinst Hlookup).
  assert (col = [13 # 1; 23 # 1; 33 # 1]) as -> by congruence.
  discriminate Hcol.
Qed.

(** With the energy column numbered 0, the record found under the label of
    bond 0 of the file with two bonds of the same label holds column
    [2*(1 + 0*(2+1)) + 3 = 5], that of bond 1, not column
    [2*(0 + 0*(2+1)) + 3 = 3]. *)
Lemma repeated_label_fails :
  ~ column_addressing 0 any_labels
      Examples.same_label Examples.same_label_instance.
Proof.
  intros (nb & ef & flag & rows & m & Hparams & Hrows & Hm & _ & Hbonds).
  rewrite ExampleFacts.same_label_parameters in Hparams.
  injection Hparams as <- <- <-.
  rewrite ExampleFacts.same_label_data_rows in Hrows. injection Hrows as <-.
  destruct (Hbonds 0%Z 0%Z Spin_up) as (label & len & st & Hheader & Hentry).
  { lia. }
  { left. }
  rewrite ExampleFacts.same_label_header in Hheader.
  injection Hheader as <- <- <-.
  destruct (Hentry I) as (entry & Hlookup & (col & Hcohp & Hcol) & _).
  pose proof (ExampleFacts.same_label_instantaneous entry) as Hinst.
  rewrite Hm in Hinst. specialize (Hinst Hlookup).
  assert (col = [5 # 1; 15 # 1]) as -> by congruence.
  discriminate Hcol.
Qed.

(** C1, as stated: however the columns are numbered, from 1 with the energy
    column as column 1 or from 0, there is a decoded file on which the
    record of bond 0 does not hold the column that the addressing names. *)
Lemma column_addressing_as_stated_fails :
  (Cohpcar.new false Examples.one_bond = Ok Examples.one_bond_instance
   /\ ~ column_addressing 1 any_labels
         Examples.one_bond Examples.one_bond_instance)
  /\ (Cohpcar.new false Examples.same_label = Ok Examples.same_label_instance
      /\ ~ column_addressing 0 any_labels
            Examples.same_label Examples.same_label_instance).
Proof.
  split; split.
  - exact ExampleFacts.one_bond_decodes.
  - exact numbering_from_one_fails.
  - exact ExampleFacts.same_label_decodes.
  - exact repeated_label_fails.
Qed.

(** ** The lengths of the sequences and the channels of the records *)

Section RecordShape.
Context `{PyFloat}.

Lemma spin_dicts_fit flag offset1 offset2 data (n : nat) cohp icohp len st :
  Forall (fun col => length col = n) data ->
  Cohpcar.spin_dict (Cohpcar.spins_of flag) offset1 data = Ok cohp ->
  Cohpcar.spin_dict (Cohpcar.spins_of flag) offset2 data = Ok icohp ->
  forall grid, length grid = n ->
  record_fits grid (list_to_set (Cohpcar.spins_of flag))
    {| Cohpcar.COHP := cohp; Cohpcar.ICOHP := icohp;
       Cohpcar.bond_length := len; Cohpcar.sites := st |}.
Proof.
  intros Hdata Hcohp Hicohp grid Hgrid.
  pose proof (spin_dict_dom _ _ _ _ Hcohp) as Hdom1.
  pose proof (spin_dict_dom _ _ _ _ Hicohp) as Hdom2.
  split; [exact Hdom1|]. split; [exact Hdom2|]. simpl.
  intros channel Hchannel.
  assert (is_Some (cohp !! channel)) as [inst Hinst]
    by (apply elem_of_dom; rewrite Hdom1; exact Hchannel).
  assert (is_Some (icohp !! channel)) as [cum Hcum]
    by (apply elem_of_dom; rewrite Hdom2; exact Hchannel).
  exists inst, cum. split; [exact Hinst|]. split; [exact Hcum|].
  rewrite Forall_forall in Hdata.
  rewrite (Hdata inst), (Hdata cum).
  - split; [exact Hgrid | reflexivity].
  - exact (spin_dict_values _ _ _ _ _ _ Hicohp Hcum).
  - exact (spin_dict_values _ _ _ _ _ _ Hcohp Hinst).
Qed.

(** The records of a decoded file, for the channels that the parameters
    line selects. *)
Lemma new_records_fit ac text obj :
  Cohpcar.new ac text = Ok obj ->
  exists nb ef flag grid m,
    Cohpcar.read_parameters (Py.split Cohpcar.newline text) = Ok (nb, ef, flag)
    /\ obj = {| Cohpcar.are_coops := Some ac;
                Cohpcar.efermi := Some ef;
                Cohpcar.is_spin_polarized := Some (flag =? 2)%Z;
                Cohpcar.energies := Some grid;
                Cohpcar.cohp_data := Some m |}
    /\ is_Some (m !! "average")
    /\ forall key entry, m !! key = Some entry ->
         record_fits grid (list_to_set (Cohpcar.spins_of flag)) entry.
Proof.
  intros Hobj. apply new_inv in Hobj. simpl in Hobj.
  destruct Hobj as (nb & ef & flag & data & column0 & average & entries
                    & Hparams & Hdata & Hcolumn0 & Haverage & Hentries & ->).
  destruct (read_data_inv _ _ _ Hdata) as (rows & _ & _ & Hlengths).
  assert (length column0 = length rows) as Hgrid.
  { rewrite Forall_forall in Hlengths. apply Hlengths.
    eapply index_elem_of. exact Hcolumn0. }
  exists nb, ef, flag, column0,
    (insert_entries {["average" := average]} entries).
  split; [exact Hparams|]. split; [reflexivity|]. split.
  { exists average.
    rewrite lookup_insert_entries_other
      by (eapply entries_not_average; eassumption).
    apply lookup_singleton_eq. }
  intros key entry Hkey.
  apply lookup_insert_entries_inv in Hkey as [Hin|[_ Hkey]].
  - apply list_elem_of_lookup in Hin as [j Hj].
    destruct (Forall2_lookup_r _ _ _ _ _ Hentries Hj) as (b & _ & Hentry).
    apply bond_entry_inv in Hentry
      as (len & st & cohp & icohp & _ & Hcohp & Hicohp & ->).
    eapply spin_dicts_fit; eassumption.
  - apply lookup_singleton_Some in Hkey as [_ <-].
    unfold Cohpcar.average_entry in Haverage.
    bind_inv Haverage as cohp Hcohp. bind_inv Haverage as icohp Hicohp.
    injection Haverage as <-.
    eapply spin_dicts_fit; eassumption.
Qed.

Lemma spins_of_set flag :
  (flag =? 2)%Z = true
  /\ list_to_set (Cohpcar.spins_of flag) = ({[Spin_up; Spin_down]} : gset Spin)
  \/ (flag =? 2)%Z = false
     /\ list_to_set (Cohpcar.spins_of flag) = ({[Spin_up]} : gset Spin).
Proof.
  unfold Cohpcar.spins_of. destruct (flag =? 2)%Z; [left | right];
    (split; [reflexivity | set_solver]).
Qed.

(** C2. In every decoded file all the records, the one of the average
    included, have the same channels (both when the file is spin polarized,
    the majority one otherwise), and the instantaneous and the cumulative
    sequence of every channel are as long as the energy grid. *)
Theorem records_fit_energy_grid ac text obj :
  Cohpcar.new ac text = Ok obj ->
  exists grid m (present : gset Spin),
    Cohpcar.energies obj = Some grid
    /\ Cohpcar.cohp_data obj = Some m
    /\ (Cohpcar.is_spin_polarized obj = Some true
        /\ present = {[Spin_up; Spin_down]}
        \/ Cohpcar.is_spin_polarized obj = Some false
           /\ present = {[Spin_up]})
    /\ is_Some (m !! "average")
    /\ forall key entry, m !! key = Some entry -> record_fits grid present entry.
Proof.
  intros Hobj.
  destruct (new_records_fit _ _ _ Hobj)
    as (nb & ef & flag & grid & m & _ & -> & Haverage & Hfit).
  exists grid, m, (list_to_set (Cohpcar.spins_of flag)). simpl.
  split; [reflexivity|]. split; [reflexivity|].
  split; [|split; assumption].
  destruct (spins_of_set flag) as [[-> ->]|[-> ->]]; [left | right]; auto.
Qed.

End RecordShape.

(** C2, witness: the file with one bond. *)
Lemma records_fit_energy_grid_witness :
  Cohpcar.new false Examples.one_bond = Ok Examples.one_bond_instance
  /\ exists grid m (present : gset Spin),
       Cohpcar.energies Examples.one_bond_instance = Some grid
       /\ Cohpcar.cohp_data Examples.one_bond_instance = Some m
       /\ (Cohpcar.is_spin_polarized Examples.one_bond_instance = Some true
           /\ present = {[Spin_up; Spin_down]}
           \/ Cohpcar.is_spin_polarized Examples.one_bond_instance = Some false
              /\ present = {[Spin_up]})
       /\ is_Some (m !! "average")
       /\ forall key entry,
            m !! key = Some entry -> record_fits grid present entry.
Proof.
  split; [exact ExampleFacts.one_bond_decodes|].
  apply (records_fit_energy_grid false Examples.one_bond).
  exact ExampleFacts.one_bond_decodes.
Defined.

(** ** The parameters line *)

Section ParametersLine.
Context `{PyFloat}.

Lemma read_parameters_inv contents nb ef flag :
  Cohpcar.read_parameters contents = Ok (nb, ef, flag) ->
  exists line first second last n,
    Py.index contents 1 = Ok line
    /\ Py.index (Py.split_ws line) 0 = Ok first /\ Py.int first = Ok n
    /\ Py.index (Py.split_ws line) 1 = Ok second /\ Py.int second = Ok flag
    /\ Py.index (Py.split_ws line) (-1) = Ok last /\ py_float last = Ok ef
    /\ nb = (n - 1)%Z.
Proof.
  unfold Cohpcar.read_parameters. intros Hparams.
  bind_inv Hparams as line Hline. bind_inv Hparams as first Hfirst.
  bind_inv Hparams as n Hn. bind_inv Hparams as last Hlast.
  bind_inv Hparams as ef' Hef. bind_inv Hparams as second Hsecond.
  bind_inv Hparams as flag' Hflag. injection Hparams as <- <- <-.
  exists line, first, second, last, n. auto 10.
Qed.

End ParametersLine.

(** ** The keys of [cohp_data] *)

Section BondKeys.
Context `{PyFloat}.

Lemma entries_labels contents spins nb data (bonds : list Z) entries :
  Forall2 (fun i kv => Cohpcar.bond_entry contents spins nb data i = Ok kv)
          bonds entries ->
  Forall2 (fun i label => exists len st, header contents i = Ok (label, len, st))
          bonds entries.*1.
Proof.
  induction 1 as [|i [label entry] bonds entries Hi _ IH]; simpl;
    constructor; [|exact IH].
  apply bond_entry_inv in Hi as (len & st & cohp & icohp & Hheader & _).
  exists len, st. exact Hheader.
Qed.

Lemma range_length (n : Z) : Z.of_nat (length (Py.range n)) = Z.max n 0.
Proof. unfold Py.range. rewrite length_seqZ. lia. Qed.

(** C6, as the code has it. The keys of the bonds are the labels of the
    header lines, none of which is ["average"]; there are at most as many
    as bonds (none when the header count is below one), and exactly as many
    when the labels of the header lines are pairwise distinct. *)
Theorem bond_keys_count ac text obj :
  Cohpcar.new ac text = Ok obj ->
  let contents := Py.split Cohpcar.newline text in
  exists nb ef flag m labels,
    Cohpcar.read_parameters contents = Ok (nb, ef, flag)
    /\ Cohpcar.cohp_data obj = Some m
    /\ Forall2 (fun i label =>
                  exists len st, header contents i = Ok (label, len, st))
               (Py.range nb) labels
    /\ "average" ∈ dom m
    /\ ("average" ∉ labels)
    /\ bond_keys m = list_to_set labels
    /\ (Z.of_nat (size (bond_keys m)) <= Z.max nb 0)%Z
    /\ (Z.of_nat (size (bond_keys m)) = Z.max nb 0 <-> NoDup labels).
Proof.
  intros Hobj contents. apply new_inv in Hobj. simpl in Hobj.
  fold contents in Hobj.
  destruct Hobj as (nb & ef & flag & data & column0 & average & entries
                    & Hparams & Hdata & Hcolumn0 & Haverage & Hentries & ->).
  exists nb, ef, flag, (insert_entries {["average" := average]} entries),
    entries.*1.
  pose proof (entries_not_average _ _ _ _ _ _ Hentries) as Hnot.
  assert (bond_keys (insert_entries {["average" := average]} entries)
          = list_to_set entries.*1) as Hkeys.
  { unfold bond_keys. rewrite dom_insert_entries, dom_singleton_L.
    apply set_eq. intros key.
    rewrite elem_of_difference, elem_of_union, elem_of_singleton,
      elem_of_list_to_set.
    split; [intros [[->|Hin] Hne]; [contradiction | exact Hin]|].
    intros Hin. split; [right; exact Hin|]. intros ->. contradiction. }
  assert (Z.of_nat (length entries.*1) = Z.max nb 0) as Hlen.
  { rewrite <- range_length, length_fmap.
    f_equal. symmetry. eapply Forall2_length. exact Hentries. }
  split; [exact Hparams|]. split; [reflexivity|].
  split; [eapply entries_labels; exact Hentries|].
  split.
  { rewrite dom_insert_entries, dom_singleton_L. set_solver. }
  split; [exact Hnot|]. split; [exact Hkeys|].
  rewrite Hkeys, <- Hlen. split.
  - apply inj_le, size_list_to_set_le.
  - rewrite <- size_list_to_set_NoDup. split; [apply Nat2Z.inj | congruence].
Qed.

End BondKeys.

(** C6, witness: the file with one bond. *)
Lemma bond_keys_count_witness :
  Cohpcar.new false Examples.one_bond = Ok Examples.one_bond_instance
  /\ exists nb ef flag m labels,
       Cohpcar.read_parameters (H := DecimalFloat.decimal)
         (Py.split Cohpcar.newline Examples.one_bond)
       = Ok (nb, ef, flag)
       /\ Cohpcar.cohp_data Examples.one_bond_instance = Some m
       /\ Forall2 (fun i label =>
                     exists len st,
                       header (H := DecimalFloat.decimal)
                         (Py.split Cohpcar.newline Examples.one_bond) i
                       = Ok (label, len, st))
                  (Py.range nb) labels
       /\ "average" ∈ dom m
       /\ ("average" ∉ labels)
       /\ bond_keys m = list_to_set labels
       /\ (Z.of_nat (size (bond_keys m)) <= Z.max nb 0)%Z
       /\ (Z.of_nat (size (bond_keys m)) = Z.max nb 0 <-> NoDup labels).
Proof.
  split; [exact ExampleFacts.one_bond_decodes|].
  apply (bond_keys_count false Examples.one_bond).
  exact ExampleFacts.one_bond_decodes.
Defined.

(** C6, as stated: a file with two bonds whose header lines give the same
    label is decoded, and its dictionary has one key besides ["average"],
    not two. *)
Lemma bond_keys_exact_fails :
  Cohpcar.new false Examples.same_label = Ok Examples.same_label_instance
  /\ ~ bond_keys_exact Examples.same_label Examples.same_label_instance.
Proof.
  split; [exact ExampleFacts.same_label_decodes|].
  intros (nb & ef & flag & m & Hparams & Hm & Hsize & _).
  rewrite ExampleFacts.same_label_parameters in Hparams. injection Hparams as <- <- <-.
  rewrite (ExampleFacts.same_label_one_key m Hm) in Hsize. discriminate Hsize.
Qed.

(** ** The decode that the parameters line determines *)

Section ParametersDecode.
Context `{PyFloat}.

(** The keys of the bonds are the labels under which entries were
    inserted. *)
Lemma bond_keys_insert_entries (average : Cohpcar.BondCurveRecord) entries :
  "average" ∉ entries.*1 ->
  bond_keys (insert_entries {["average" := average]} entries)
  = list_to_set entries.*1.
Proof.
  intros Hnot. unfold bond_keys. rewrite dom_insert_entries, dom_singleton_L.
  apply set_eq. intros key.
  rewrite elem_of_difference, elem_of_union, elem_of_singleton,
    elem_of_list_to_set.
  split; [intros [[->|Hin] Hne]; [contradiction | exact Hin]|].
  intros Hin. split; [right; exact Hin|]. intros ->. contradiction.
Qed.

(** C5. The tokens of the second line determine the decode. With [n] the
    first token read as an integer, [flag] the second token read as an
    integer and [ef] the last token read as a float: the Fermi energy is
    [ef]; the file is spin polarized exactly when [flag] is 2, and every
    record, the one of the average included, has two channels then and one
    channel otherwise; and the number of bonds is [n - 1]: the header lines
    are the [n - 1] lines from the fourth on, the keys of the bonds are
    their labels, the data rows are the lines from line [n + 2] on, counted
    from 0, and the energy grid is their first column. *)
Theorem parameters_line_determines_decode ac text obj :
  Cohpcar.new ac text = Ok obj ->
  let contents := Py.split Cohpcar.newline text in
  exists line first second last n flag ef m average labels rows grid,
    Py.index contents 1 = Ok line
    /\ Py.index (Py.split_ws line) 0 = Ok first /\ Py.int first = Ok n
    /\ Py.index (Py.split_ws line) 1 = Ok second /\ Py.int second = Ok flag
    /\ Py.index (Py.split_ws line) (-1) = Ok last /\ py_float last = Ok ef
    /\ Cohpcar.decode contents (n - 1) flag
         (Cohpcar.set_efermi ef (Cohpcar.set_are_coops ac Cohpcar.fresh))
       = Ok obj
    /\ Cohpcar.efermi obj = Some ef
    /\ Cohpcar.is_spin_polarized obj = Some (bool_decide (flag = 2%Z))
    /\ Cohpcar.cohp_data obj = Some m
    /\ m !! "average" = Some average
    /\ (forall key entry, m !! key = Some entry ->
          dom (Cohpcar.COHP entry)
          = (if bool_decide (flag = 2%Z) then {[Spin_up; Spin_down]}
             else {[Spin_up]})
          /\ dom (Cohpcar.ICOHP entry) = dom (Cohpcar.COHP entry))
    /\ Forall2 (fun i label =>
                  exists len st, header contents i = Ok (label, len, st))
               (Py.range (n - 1)) labels
    /\ bond_keys m = list_to_set labels
    /\ mapM (fun row => Np.array_of_tokens (Py.split_ws row))
            (Py.slice_from contents (n + 2)) = Ok rows
    /\ Cohpcar.energies obj = Some grid
    /\ column rows 0 = Some grid.
Proof.
  intros Hobj contents.
  destruct (new_records_fit _ _ _ Hobj)
    as (nb' & ef' & flag' & grid' & m' & Hparams' & Heq' & _ & Hfit).
  fold contents in Hparams'.
  pose proof Hobj as Hinv. apply new_inv in Hinv. simpl in Hinv.
  fold contents in Hinv.
  destruct Hinv as (nb & ef & flag & data & column0 & average & entries
                    & Hparams & Hdata & Hcolumn0 & Haverage & Hentries & Heq).
  rewrite Hparams in Hparams'. injection Hparams' as <- <- <-.
  rewrite Heq in Heq'. injection Heq' as <- <-.
  destruct (read_parameters_inv _ _ _ _ Hparams)
    as (line & first & second & last & n & Hline & Hfirst & Hn & Hsecond
        & Hflag & Hlast & Hef & ->).
  destruct (read_data_inv _ _ _ Hdata) as (rows & Hrows & Hcolumns & _).
  pose proof (entries_not_average _ _ _ _ _ _ Hentries) as Hnot.
  exists line, first, second, last, n, flag, ef,
    (insert_entries {["average" := average]} entries), average, entries.*1,
    rows, column0.
  repeat (split; [assumption|]).
  split.
  { unfold Cohpcar.new, Cohpcar.__init__ in Hobj. fold contents in Hobj.
    rewrite Hparams in Hobj. exact Hobj. }
  assert ((flag =? 2)%Z = bool_decide (flag = 2%Z)) as Hdec.
  { destruct (Z.eqb_spec flag 2) as [->|Hne]; [reflexivity|].
    symmetry. apply bool_decide_eq_false. exact Hne. }
  subst obj. simpl. rewrite <- Hdec.
  split; [reflexivity|]. split; [reflexivity|]. split; [reflexivity|].
  split.
  { rewrite lookup_insert_entries_other by exact Hnot.
    apply lookup_singleton_eq. }
  split.
  { intros key entry Hkey. destruct (Hfit key entry Hkey) as (Hd1 & Hd2 & _).
    rewrite Hd2, Hd1. split; [|reflexivity].
    destruct (spins_of_set flag) as [[-> ->]|[-> ->]]; reflexivity. }
  split; [eapply entries_labels; exact Hentries|].
  split; [apply bond_keys_insert_entries; exact Hnot|].
  split.
  { unfold Cohpcar.data_rows in Hrows.
    replace (n - 1 + 3)%Z with (n + 2)%Z in Hrows by lia. exact Hrows. }
  split; [reflexivity|].
  apply Hcolumns; [lia | exact Hcolumn0].
Qed.

End ParametersDecode.

(** C5, witness: the file with one bond. *)
Lemma parameters_line_determines_decode_witness :
  Cohpcar.new (H := DecimalFloat.decimal) false Examples.one_bond
  = Ok Examples.one_bond_instance
  /\ exists line first second last n flag ef
       (m : gmap string (Cohpcar.BondCurveRecord (H := DecimalFloat.decimal)))
       average labels rows grid,
       Py.index (Py.split Cohpcar.newline Examples.one_bond) 1 = Ok line
       /\ Py.index (Py.split_ws line) 0 = Ok first /\ Py.int first = Ok n
       /\ Py.index (Py.split_ws line) 1 = Ok second /\ Py.int second = Ok flag
       /\ Py.index (Py.split_ws line) (-1) = Ok last /\ py_float last = Ok ef
       /\ Cohpcar.decode (Py.split Cohpcar.newline Examples.one_bond)
            (n - 1) flag
            (Cohpcar.set_efermi ef (Cohpcar.set_are_coops false Cohpcar.fresh))
          = Ok Examples.one_bond_instance
       /\ Cohpcar.efermi Examples.one_bond_instance = Some ef
       /\ Cohpcar.is_spin_polarized Examples.one_bond_instance
          = Some (bool_decide (flag = 2%Z))
       /\ Cohpcar.cohp_data Examples.one_bond_instance = Some m
       /\ m !! "average" = Some average
       /\ (forall (key : string) entry, m !! key = Some entry ->
             dom (Cohpcar.COHP entry)
             = (if bool_decide (flag = 2%Z) then {[Spin_up; Spin_down]}
                else {[Spin_up]})
             /\ dom (Cohpcar.ICOHP entry) = dom (Cohpcar.COHP entry))
       /\ Forall2 (fun i label =>
                     exists len st,
                       header (H := DecimalFloat.decimal) (Py.split Cohpcar.newline Examples.one_bond) i
                       = Ok (label, len, st))
                  (Py.range (n - 1)) labels
       /\ bond_keys m = list_to_set labels
       /\ mapM (fun row => Np.array_of_tokens (H := DecimalFloat.decimal)
                                  (Py.split_ws row))
               (Py.slice_from (Py.split Cohpcar.newline Examples.one_bond)
                              (n + 2)) = Ok rows
       /\ Cohpcar.energies Examples.one_bond_instance = Some grid
       /\ column rows 0 = Some grid.
Proof.
  split; [exact ExampleFacts.one_bond_decodes|].
  apply (parameters_line_determines_decode false Examples.one_bond).
  exact ExampleFacts.one_bond_decodes.
Defined.

(** ** The third line of a COHPCAR file *)

Section ThirdLine.
Context `{PyFloat}.

Lemma index_skip3 {A} (a b c : A) (rest : list A) (i : Z) :
  (0 <= i)%Z -> Py.index (a :: b :: c :: rest) (3 + i) = Py.index rest i.
Proof.
  intros Hi. rewrite !index_nonneg by lia.
  replace (Z.to_nat (3 + i)) with (S (S (S (Z.to_nat i)))) by lia.
  reflexivity.
Qed.

Lemma slice_from_skip3 {A} (a b c : A) (rest : list A) (n : Z) :
  (0 <= n)%Z ->
  Py.slice_from (a :: b :: c :: rest) (n + 3) = Py.slice_from rest n.
Proof.
  intros Hn. unfold Py.slice_from, Py.clamp, Py.len. simpl length.
  destruct (n + 3 <? 0)%Z eqn:H1; [lia|].
  destruct (n <? 0)%Z eqn:H2; [lia|].
  replace (Z.to_nat (Z.min (n + 3) (Z.of_nat (S (S (S (length rest)))))))
    with (S (S (S (Z.to_nat (Z.min n (Z.of_nat (length rest))))))) by lia.
  reflexivity.
Qed.

(** With a header count of at least one, what follows the parameters line
    is decoded without the third line. *)
Lemma decode_third_line title params third1 third2 rest nb flag self :
  (0 <= nb)%Z ->
  Cohpcar.decode (title :: params :: third1 :: rest) nb flag self
  = Cohpcar.decode (title :: params :: third2 :: rest) nb flag self.
Proof.
  intros Hnb. unfold Cohpcar.decode, Cohpcar.read_data, Cohpcar.data_rows.
  rewrite !slice_from_skip3 by exact Hnb.
  destruct (mapM _ (Py.slice_from rest nb)) as [rows|e]; simpl; [|reflexivity].
  destruct (Np.array rows) as [arr|e]; simpl; [|reflexivity].
  destruct (Py.index (Np.transpose arr) 0) as [column0|e]; simpl;
    [|reflexivity].
  destruct (Cohpcar.average_entry _ nb _) as [average|e]; simpl;
    [|reflexivity].
  erewrite foldM_ext; [reflexivity|].
  intros m i Hi. unfold Py.range in Hi. apply elem_of_seqZ in Hi.
  unfold Cohpcar.bond_entry. rewrite !index_skip3 by lia. reflexivity.
Qed.

(** C10, as the code has it. When the header count on the parameters line
    is at least one, two texts that differ only in their third line are
    decoded to the same instance, or raise the same exception. *)
Theorem third_line_not_read ac text1 text2 title params third1 third2 rest :
  Py.split Cohpcar.newline text1 = title :: params :: third1 :: rest ->
  Py.split Cohpcar.newline text2 = title :: params :: third2 :: rest ->
  (forall first n, Py.index (Py.split_ws params) 0 = Ok first ->
                   Py.int first = Ok n -> (1 <= n)%Z) ->
  Cohpcar.new ac text1 = Cohpcar.new ac text2.
Proof.
  intros Htext1 Htext2 Hcount. unfold Cohpcar.new, Cohpcar.__init__.
  rewrite Htext1, Htext2.
  change (Cohpcar.read_parameters (title :: params :: third1 :: rest))
    with (Cohpcar.read_parameters (title :: params :: third2 :: rest)).
  destruct (Cohpcar.read_parameters _) as [[[nb ef] flag]|e] eqn:Hparams;
    simpl; [|reflexivity].
  apply decode_third_line.
  apply read_parameters_inv in Hparams
    as (line & first & second & last & n & Hline & Hfirst & Hn & _ & _ & _
        & _ & ->).
  injection Hline as <-. specialize (Hcount first n Hfirst Hn). lia.
Qed.

End ThirdLine.

(** C10, as stated: with a header count of zero the third line is the first
    data row, and its first float is the energy grid. *)
Lemma third_line_read_without_bonds :
  Py.split Cohpcar.newline (Examples.no_bond "1.0 2.0 3.0")
  = ["COHPCAR"; "0 1 0.0"; "1.0 2.0 3.0"]
  /\ Py.split Cohpcar.newline (Examples.no_bond "5.0 2.0 3.0")
     = ["COHPCAR"; "0 1 0.0"; "5.0 2.0 3.0"]
  /\ Cohpcar.new (H := DecimalFloat.decimal) false (Examples.no_bond "1.0 2.0 3.0")
     <> Cohpcar.new false (Examples.no_bond "5.0 2.0 3.0").
Proof.
  split; [reflexivity|]. split; [reflexivity|].
  intros Heq. pose proof ExampleFacts.no_bond_energies_1 as H1.
  rewrite Heq, ExampleFacts.no_bond_energies_5 in H1. discriminate H1.
Qed.

(** C10, witness: two files with one bond that differ in the third line. *)
Lemma third_line_not_read_witness :
  Cohpcar.new (H := DecimalFloat.decimal) false
    (Examples.unlines ["COHPCAR"; "2 1 0.0"; "Average";
                       "No.1:Fe1->Fe9(2.5)"; "0.0 1.0 2.0 3.0 4.0"])
  = Cohpcar.new false
      (Examples.unlines ["COHPCAR"; "2 1 0.0"; "0.0 1.0 2.0 3.0 4.0";
                         "No.1:Fe1->Fe9(2.5)"; "0.0 1.0 2.0 3.0 4.0"]).
Proof.
  apply (third_line_not_read (H := DecimalFloat.decimal) false _ _
           "COHPCAR" "2 1 0.0" "Average" "0.0 1.0 2.0 3.0 4.0"
           ["No.1:Fe1->Fe9(2.5)"; "0.0 1.0 2.0 3.0 4.0"]).
  - reflexivity.
  - reflexivity.
  - intros first n [= <-] [= <-]. lia.
Defined.

(** ** The reader of ICOHPLIST files *)

Section IcohplistFacts.
Context `{PyFloat}.

(** An iteration of the loop inserts the entry of its bond. *)
Lemma bond_step_entry data nb polarized m b :
  Icohplist.bond_step data nb polarized m b
  = '(label, entry) ← summary_entry data nb polarized b;
    Ok (<[label := entry]> m).
Proof.
  unfold Icohplist.bond_step, summary_entry.
  destruct (Py.index data b) as [row|e]; simpl; [|reflexivity].
  destruct (Py.index (Py.split_ws row) 1) as [elem1|e]; simpl; [|reflexivity].
  destruct (Py.index (Py.split_ws row) 2) as [elem2|e]; simpl; [|reflexivity].
  destruct (Py.index (Py.split_ws row) 3) as [c3|e]; simpl; [|reflexivity].
  destruct (py_float c3) as [length|e]; simpl; [|reflexivity].
  destruct (Py.index (Py.split_ws row) 4) as [c4|e]; simpl; [|reflexivity].
  destruct (py_float c4) as [up|e]; simpl; [|reflexivity].
  destruct (Py.index (Py.split_ws row) 5) as [c5|e]; simpl; [|reflexivity].
  destruct (Py.int c5) as [num|e]; simpl; [|reflexivity].
  destruct polarized; [|reflexivity].
  destruct (Py.index data (b + nb + 1)) as [row'|e]; simpl; [|reflexivity].
  destruct (Py.index (Py.split_ws row') 4) as [c4'|e]; simpl; [|reflexivity].
  destruct (py_float c4') as [down|e]; simpl; [|reflexivity].
  rewrite alter_insert_eq. reflexivity.
Qed.

Lemma detect_inv data nb polarized :
  Icohplist.detect data = Ok (nb, polarized) ->
  exists middle,
    Py.index data (Z.div (Py.len data) 2) = Ok middle
    /\ polarized = Py.contains "distance" middle
    /\ nb = (if polarized then Z.div (Py.len data) 2 else Py.len data).
Proof.
  unfold Icohplist.detect. intros Hdetect. bind_inv Hdetect as middle Hmiddle.
  exists middle. split; [exact Hmiddle|].
  destruct (Py.contains "distance" middle); injection Hdetect as <- <-; auto.
Qed.

(** What a successful construction has computed. *)
Lemma new_inv_summary ac text obj :
  Icohplist.new ac text = Ok obj ->
  let data := Icohplist.data_lines text in
  exists nb polarized entries,
    Icohplist.detect data = Ok (nb, polarized)
    /\ Forall2 (fun b kv => summary_entry data nb polarized b = Ok kv)
               (Py.range nb) entries
    /\ obj = {| Icohplist.are_coops := Some ac;
                Icohplist.is_spin_polarized := Some polarized;
                Icohplist.icohplist := Some (insert_entries ∅ entries) |}.
Proof.
  intros Hobj data. unfold Icohplist.new, Icohplist.__init__ in Hobj.
  fold data in Hobj. bind_inv Hobj as detected Hdetect.
  destruct detected as [nb polarized]. bind_inv Hobj as m Hm.
  injection Hobj as <-.
  erewrite foldM_ext in Hm by (intros; apply bond_step_entry).
  apply foldM_insert in Hm as (entries & Hentries & ->).
  exists nb, polarized, entries. auto.
Qed.

Lemma range_elem (n b : Z) : b ∈ Py.range n <-> (0 <= b < n)%Z.
Proof. unfold Py.range. rewrite elem_of_seqZ. lia. Qed.

End IcohplistFacts.

(** ** Repeated labels in an ICOHPLIST file *)

Section RepeatedLabels.
Context `{PyFloat}.

Lemma detect_nonneg data nb polarized :
  Icohplist.detect data = Ok (nb, polarized) -> (0 <= nb)%Z.
Proof.
  intros Hdetect. apply detect_inv in Hdetect as (middle & _ & _ & ->).
  unfold Py.len. destruct polarized; [apply Z.div_pos|]; lia.
Qed.

(** C9. The dictionary of a decoded file holds, under each label, the entry
    of the last line of the majority half with that label: its length,
    multiplicity and integrated values are those of that line. It has at
    most [num_bonds] records, and exactly [num_bonds] when the labels of the
    lines are pairwise distinct. *)
Theorem last_line_of_a_label_wins ac text obj :
  Icohplist.new ac text = Ok obj -> keeps_last_entries text obj.
Proof.
  intros Hobj. apply new_inv_summary in Hobj. simpl in Hobj.
  destruct Hobj as (nb & polarized & entries & Hdetect & Hentries & ->).
  exists nb, polarized, (insert_entries ∅ entries), entries.
  pose proof (detect_nonneg _ _ _ Hdetect) as Hnb.
  assert (Z.of_nat (length entries.*1) = nb) as Hlen.
  { rewrite length_fmap, <- (Forall2_length _ _ _ Hentries), range_length.
    lia. }
  assert (size (insert_entries (∅ : gmap string Icohplist.BondSummaryRecord)
                               entries)
          = size (list_to_set entries.*1 : gset string)) as Hsize.
  { rewrite <- size_dom, dom_insert_entries, dom_empty_L.
    f_equal. set_solver. }
  split; [exact Hdetect|]. split; [reflexivity|]. split; [exact Hentries|].
  split.
  { intros i label entry Hi Hlast.
    eapply lookup_insert_entries_last; eassumption. }
  split.
  { intros label entry Hlookup.
    apply lookup_insert_entries_inv in Hlookup as [Hin|[_ Hempty]];
      [exact Hin|].
    rewrite lookup_empty in Hempty. discriminate. }
  rewrite Hsize, <- Hlen. split.
  - apply inj_le, size_list_to_set_le.
  - rewrite <- size_list_to_set_NoDup. split; [apply Nat2Z.inj | congruence].
Qed.

End RepeatedLabels.

(** C9, witness: the list of two bonds with the same label. *)
Lemma last_line_of_a_label_wins_witness :
  Icohplist.new false Examples.polarized = Ok Examples.polarized_instance
  /\ keeps_last_entries Examples.polarized Examples.polarized_instance.
Proof.
  split; [exact ExampleFacts.polarized_decodes|].
  apply (last_line_of_a_label_wins false Examples.polarized).
  exact ExampleFacts.polarized_decodes.
Defined.

(** ** The detection of spin polarization *)

Section Detection.
Context `{PyFloat}.

Lemma index_Ok_lt {A} (l : list A) (i : Z) (x : A) :
  (0 <= i)%Z -> Py.index l i = Ok x -> (i < Py.len l)%Z.
Proof.
  intros Hi. rewrite index_nonneg by exact Hi.
  destruct (l !! Z.to_nat i) eqn:Hlookup; [|discriminate]. intros _.
  apply lookup_lt_Some in Hlookup. unfold Py.len. lia.
Qed.

Lemma summary_entry_down data nb b label entry :
  summary_entry data nb true b = Ok (label, entry) ->
  exists row' c v,
    Py.index data (b + nb + 1) = Ok row'
    /\ Py.index (Py.split_ws row') 4 = Ok c
    /\ py_float c = Ok v
    /\ Icohplist.icohp entry !! Spin_down = Some v.
Proof.
  unfold summary_entry. intros Hentry.
  bind_inv Hentry as row Hrow. bind_inv Hentry as elem1 Helem1.
  bind_inv Hentry as elem2 Helem2. bind_inv Hentry as c3 Hc3.
  bind_inv Hentry as len Hlen. bind_inv Hentry as c4 Hc4.
  bind_inv Hentry as up Hup. bind_inv Hentry as c5 Hc5.
  bind_inv Hentry as num Hnum. bind_inv Hentry as row' Hrow'.
  bind_inv Hentry as c4' Hc4'. bind_inv Hentry as down Hdown.
  injection Hentry as <- <-. exists row', c4', down. simpl.
  rewrite lookup_insert_eq. auto.
Qed.

Lemma summary_entry_up data nb b label entry :
  summary_entry data nb false b = Ok (label, entry) ->
  Icohplist.icohp entry !! Spin_down = None.
Proof.
  unfold summary_entry. intros Hentry.
  bind_inv Hentry as row Hrow. bind_inv Hentry as elem1 Helem1.
  bind_inv Hentry as elem2 Helem2. bind_inv Hentry as c3 Hc3.
  bind_inv Hentry as len Hlen. bind_inv Hentry as c4 Hc4.
  bind_inv Hentry as up Hup. bind_inv Hentry as c5 Hc5.
  bind_inv Hentry as num Hnum. injection Hentry as <- <-. reflexivity.
Qed.

(** C4. In a decoded ICOHPLIST file, if the line in the middle of the data
    lines contains [distance], the instance is spin polarized, the data
    lines are two halves of [num_bonds] lines each around that line, and the
    minority value of bond [b] is the fifth column of line
    [b + num_bonds + 1]; if it does not, the instance is not spin polarized,
    whatever the parity of the number of lines. *)
Theorem spin_polarization_detected ac text obj :
  Icohplist.new ac text = Ok obj -> detection_symmetric text obj.
Proof.
  intros Hobj. apply new_inv_summary in Hobj. simpl in Hobj.
  destruct Hobj as (nb & polarized & entries & Hdetect & Hentries & ->).
  destruct (detect_inv _ _ _ Hdetect) as (middle & Hmiddle & -> & ->).
  unfold detection_symmetric.
  set (data := Icohplist.data_lines text) in *.
  set (half := Z.div (Py.len data) 2) in *.
  assert (0 <= Py.len data)%Z as Hlen0 by (unfold Py.len; lia).
  assert (0 <= half)%Z as Hhalf0 by (apply Z.div_pos; lia).
  pose proof (Z.div_mod (Py.len data) 2 ltac:(lia)) as Hdiv.
  pose proof (Z.mod_pos_bound (Py.len data) 2 ltac:(lia)) as Hmod.
  fold half in Hdiv.
  exists middle, (insert_entries ∅ entries).
  split; [exact Hmiddle|]. split; [reflexivity|]. split.
  - intros Hcontains. rewrite Hcontains in *. simpl.
    assert (Py.len data = 2 * half + 1)%Z as Hlen.
    { pose proof (index_Ok_lt _ _ _ Hhalf0 Hmiddle) as Hlt.
      destruct (decide (half = 0%Z)) as [Hzero|Hpos]; [lia|].
      destruct (Forall2_lookup_l _ _ _ _ _ Hentries
                  (range_lookup half (half - 1) ltac:(lia)))
        as ([label entry] & _ & Hentry).
      apply summary_entry_down in Hentry as (row' & c & v & Hrow' & _).
      apply index_Ok_lt in Hrow'; lia. }
    split; [reflexivity|]. split; [exact Hlen|].
    unfold Py.len in *. rewrite length_take, length_drop.
    split; [lia|]. split; [lia|].
    intros b Hb.
    destruct (Forall2_lookup_l _ _ _ _ _ Hentries (range_lookup half b Hb))
      as ([label entry] & Hlookup & Hentry).
    destruct (summary_entry_down _ _ _ _ _ Hentry)
      as (row' & c & v & Hrow' & Hc & Hv & Hdown).
    exists label, entry, row', c, v.
    repeat (split; [assumption|]).
    intros Hlater. eapply lookup_insert_entries_last; [exact Hlookup|].
    intros j [label' entry'] Hj Hlookup'.
    destruct (Forall2_lookup_r _ _ _ _ _ Hentries Hlookup')
      as (b' & Hb' & Hentry').
    apply range_lookup_inv in Hb' as [-> Hb'].
    simpl. eapply Hlater; [|exact Hentry']. lia.
  - intros Hcontains. rewrite Hcontains in *. simpl.
    split; [reflexivity|]. intros label entry Hlookup.
    apply lookup_insert_entries_inv in Hlookup as [Hin|[_ Hempty]].
    + apply list_elem_of_lookup in Hin as [j Hj].
      destruct (Forall2_lookup_r _ _ _ _ _ Hentries Hj) as (b & _ & Hentry).
      eapply summary_entry_up. exact Hentry.
    + rewrite lookup_empty in Hempty. discriminate.
Qed.

End Detection.

(** C4, witness: the spin polarized list of two bonds. *)
Lemma spin_polarization_detected_witness :
  Icohplist.new false Examples.polarized = Ok Examples.polarized_instance
  /\ detection_symmetric Examples.polarized Examples.polarized_instance.
Proof.
  split; [exact ExampleFacts.polarized_decodes|].
  apply (spin_polarization_detected false Examples.polarized).
  exact ExampleFacts.polarized_decodes.
Defined.

(** ** The failures of the reader of ICOHPLIST files *)

Section SummaryFailures.
Context `{PyFloat}.

Lemma index_short {A} (l : list A) (i : Z) :
  (Py.len l <= i)%Z -> Py.index l i = Raise IndexError.
Proof.
  intros Hi. assert (0 <= i)%Z by (unfold Py.len in Hi; lia).
  rewrite index_nonneg by assumption.
  rewrite lookup_ge_None_2; [reflexivity|]. unfold Py.len in Hi. lia.
Qed.

(** A line of the majority half with fewer than six columns. *)
Lemma summary_entry_short_majority data nb polarized b row :
  Py.index data b = Ok row -> (length (Py.split_ws row) < 6)%nat ->
  is_Raise (summary_entry data nb polarized b).
Proof.
  intros Hrow Hshort. unfold summary_entry. rewrite Hrow. simpl.
  destruct (Py.index (Py.split_ws row) 1) as [elem1|e]; simpl; [|by eexists].
  destruct (Py.index (Py.split_ws row) 2) as [elem2|e]; simpl; [|by eexists].
  destruct (Py.index (Py.split_ws row) 3) as [c3|e]; simpl; [|by eexists].
  destruct (py_float c3) as [len|e]; simpl; [|by eexists].
  destruct (Py.index (Py.split_ws row) 4) as [c4|e]; simpl; [|by eexists].
  destruct (py_float c4) as [up|e]; simpl; [|by eexists].
  rewrite (index_short (Py.split_ws row) 5) by (unfold Py.len; lia).
  by eexists.
Qed.

(** A line of the minority half with fewer than five columns. *)
Lemma summary_entry_short_minority data nb b row :
  Py.index data (b + nb + 1) = Ok row -> (length (Py.split_ws row) < 5)%nat ->
  is_Raise (summary_entry data nb true b).
Proof.
  intros Hrow Hshort. unfold summary_entry.
  destruct (Py.index data b) as [row0|e]; simpl; [|by eexists].
  destruct (Py.index (Py.split_ws row0) 1) as [elem1|e]; simpl; [|by eexists].
  destruct (Py.index (Py.split_ws row0) 2) as [elem2|e]; simpl; [|by eexists].
  destruct (Py.index (Py.split_ws row0) 3) as [c3|e]; simpl; [|by eexists].
  destruct (py_float c3) as [len|e]; simpl; [|by eexists].
  destruct (Py.index (Py.split_ws row0) 4) as [c4|e]; simpl; [|by eexists].
  destruct (py_float c4) as [up|e]; simpl; [|by eexists].
  destruct (Py.index (Py.split_ws row0) 5) as [c5|e]; simpl; [|by eexists].
  destruct (Py.int c5) as [num|e]; simpl; [|by eexists].
  rewrite Hrow. simpl.
  rewrite (index_short (Py.split_ws row) 4) by (unfold Py.len; lia).
  by eexists.
Qed.

(** The construction raises when the entry of one of the bonds does. *)
Lemma new_Raise ac text nb polarized b :
  Icohplist.detect (Icohplist.data_lines text) = Ok (nb, polarized) ->
  (0 <= b < nb)%Z ->
  is_Raise (summary_entry (Icohplist.data_lines text) nb polarized b) ->
  is_Raise (Icohplist.new ac text).
Proof.
  intros Hdetect Hb Hentry. unfold Icohplist.new, Icohplist.__init__.
  rewrite Hdetect. simpl. apply bind_Raise.
  apply (foldM_Raise _ _ _ b); [apply range_elem; exact Hb|].
  intros m. rewrite bond_step_entry. apply bind_Raise. exact Hentry.
Qed.

Lemma data_lines_short text :
  (length (Py.split Cohpcar.newline text) <= 2)%nat ->
  Icohplist.data_lines text = [].
Proof.
  unfold Icohplist.data_lines.
  destruct (Py.split Cohpcar.newline text) as [|l0 [|l1 [|l2 lines]]];
    simpl; intros Hlen; try reflexivity. lia.
Qed.

(** C8, as the code has it. The construction raises [IndexError] or
    [ValueError] when the text has at most two lines, when a line of the
    majority half has fewer than six columns, and when a line of the
    minority half has fewer than five; and it either raises or returns an
    instance with all its attributes assigned. *)
Theorem summary_fails_or_completes ac text :
  let data := Icohplist.data_lines text in
  ((length (Py.split Cohpcar.newline text) <= 2)%nat ->
   is_Raise (Icohplist.new ac text))
  /\ (forall nb polarized b row,
        Icohplist.detect data = Ok (nb, polarized) -> (0 <= b < nb)%Z ->
        Py.index data b = Ok row -> (length (Py.split_ws row) < 6)%nat ->
        is_Raise (Icohplist.new ac text))
  /\ (forall nb b row,
        Icohplist.detect data = Ok (nb, true) -> (0 <= b < nb)%Z ->
        Py.index data (b + nb + 1) = Ok row ->
        (length (Py.split_ws row) < 5)%nat ->
        is_Raise (Icohplist.new ac text))
  /\ (is_Raise (Icohplist.new ac text)
      \/ exists obj polarized m,
           Icohplist.new ac text = Ok obj
           /\ Icohplist.are_coops obj = Some ac
           /\ Icohplist.is_spin_polarized obj = Some polarized
           /\ Icohplist.icohplist obj = Some m).
Proof.
  intros data. repeat split.
  - intros Hshort. unfold Icohplist.new, Icohplist.__init__.
    rewrite (data_lines_short _ Hshort). by eexists.
  - intros nb polarized b row Hdetect Hb Hrow Hshort.
    eapply new_Raise; [exact Hdetect | exact Hb |].
    eapply summary_entry_short_majority; eassumption.
  - intros nb b row Hdetect Hb Hrow Hshort.
    eapply new_Raise; [exact Hdetect | exact Hb |].
    eapply summary_entry_short_minority; eassumption.
  - destruct (Icohplist.new ac text) as [obj|e] eqn:Hobj;
      [right | left; by eexists].
    apply new_inv_summary in Hobj. simpl in Hobj.
    destruct Hobj as (nb & polarized & entries & _ & _ & ->).
    eexists _, polarized, _. repeat split.
Qed.

End SummaryFailures.

(** C8, as stated: the list of two bonds is decoded although the lines of
    its minority half, which are read, have five columns. *)
Lemma five_columns_accepted :
  short_line_read Examples.polarized
  /\ ~ is_Raise (Icohplist.new (H := DecimalFloat.decimal) false
                   Examples.polarized).
Proof.
  split.
  - exists 2%Z, true, 3%Z, "      1     Fe1     Fe9      2.5        -0.5".
    split; [reflexivity|]. split; [|split; [reflexivity | simpl; lia]].
    unfold lines_read. apply elem_of_app. right. simpl. left.
  - rewrite ExampleFacts.polarized_decodes. intros [e He]. discriminate He.
Qed.

(** ** The failures of the header-line parser *)


Lemma split_nonempty sep s : exists piece pieces, Py.split sep s = piece :: pieces.
Proof.
  destruct s as [|c s]; simpl; [eauto|].
  destruct (Ascii.eqb c sep); [eauto|].
  destruct (Py.split sep s); eauto.
Qed.


Lemma split_no_sep sep s : mem_char sep s = false -> Py.split sep s = [s].
Proof.
  induction s as [|c s IH]; simpl; [reflexivity|].
  rewrite (Ascii.eqb_sym sep c). destruct (Ascii.eqb c sep); simpl;
    [discriminate|].
  intros Hs. rewrite (IH Hs). reflexivity.
Qed.




Lemma mapM_length {A B} (f : A -> result B) (l : list A) (k : list B) :
  mapM f l = Ok k -> length k = length l.
Proof.
  revert k. induction l as [|x l IH]; simpl; intros k Hk.
  - injection Hk as <-. reflexivity.
  - bind_inv Hk as y Hy. bind_inv Hk as k' Hk'. injection Hk as <-.
    simpl. f_equal. apply IH. exact Hk'.
Qed.

Section HeaderFailures.
Context `{PyFloat}.




End HeaderFailures.

(** ** The characters of a decimal literal *)









(** ** Decimal texts: ["%d" % n] and [int(s)] *)


Lemma all_chars_impl (p q : ascii -> bool) s :
  (forall c, p c = true -> q c = true) ->
  all_chars p s = true -> all_chars q s = true.
Proof.
  intros Hpq. induction s as [|c s IH]; cbn [all_chars]; [reflexivity|].
  intros Hs. apply andb_prop in Hs as [Hc Hs].
  rewrite (Hpq c Hc), (IH Hs). reflexivity.
Qed.



Lemma digit_not_space c : Py.is_digit c = true -> Py.is_int_space c = false.
Proof.
  destruct c as [[] [] [] [] [] [] [] []]; cbv; intros; congruence.
Qed.

Lemma skip_leading_no_space s :
  all_chars (fun c => negb (Py.is_int_space c)) s = true ->
  Py.skip_leading s = s.
Proof.
  destruct s as [|c s]; cbn [all_chars Py.skip_leading]; [reflexivity|].
  intros Hs. apply andb_prop in Hs as [Hc _].
  apply negb_true_iff in Hc. rewrite Hc. reflexivity.
Qed.

Lemma skip_trailing_no_space s :
  all_chars (fun c => negb (Py.is_int_space c)) s = true ->
  Py.skip_trailing s = s.
Proof.
  induction s as [|c s IH]; cbn [all_chars Py.skip_trailing]; [reflexivity|].
  intros Hs. apply andb_prop in Hs as [Hc Hs].
  apply negb_true_iff in Hc. rewrite (IH Hs), Hc.
  destruct s; reflexivity.
Qed.

Lemma skip_space_no_space s :
  all_chars (fun c => negb (Py.is_int_space c)) s = true ->
  Py.skip_space s = s.
Proof.
  intros Hs. unfold Py.skip_space. rewrite (skip_leading_no_space s Hs).
  apply skip_trailing_no_space. exact Hs.
Qed.

(** A run of digits is a literal without underscores. *)
Lemma literal_value_digits acc after_digit s :
  all_chars Py.is_digit s = true ->
  s <> "" \/ after_digit = true ->
  Py.literal_value acc after_digit s = Py.digits_value acc s.
Proof.
  revert acc after_digit.
  induction s as [|c s IH]; intros acc after_digit Hs Hstart.
  - destruct Hstart as [Hs'| ->]; [contradiction | reflexivity].
  - cbn [all_chars] in Hs. apply andb_prop in Hs as [Hc Hs].
    cbn [Py.literal_value Py.digits_value]. rewrite Hc.
    apply IH; [exact Hs | right; reflexivity].
Qed.

(** The value of a run of digits, as [int] reads it. *)
Lemma int_digits c s :
  all_chars Py.is_digit (String c s) = true ->
  Py.int (String c s)
  = match Py.digits_value 0 (String c s) with
    | Some n => Ok n
    | None => Raise ValueError
    end.
Proof.
  intros Hs.
  rewrite <- (literal_value_digits 0 false (String c s) Hs)
    by (left; discriminate).
  change (Py.int (String c s) = Py.unsigned_value (String c s)).
  unfold Py.int. rewrite skip_space_no_space.
  - cbn [all_chars] in Hs. apply andb_prop in Hs as [Hc _].
    destruct c as [[] [] [] [] [] [] [] []]; try reflexivity;
      cbv in Hc; discriminate Hc.
  - eapply all_chars_impl; [|exact Hs].
    intros a Ha. rewrite (digit_not_space a Ha). reflexivity.
Qed.

Lemma digits_value_of_uint d acc :
  Py.digits_value acc (NilEmpty.string_of_uint d) = Some (uint_value acc d).
Proof.
  revert acc. induction d; intros acc; cbn [NilEmpty.string_of_uint uint_value];
    [reflexivity|..];
    (change (Py.digits_value acc (String ?c ?s))
       with (Py.digits_value (10 * acc + Z.of_nat (nat_of_ascii c - 48)) s)
     || idtac);
    apply IHd.
Qed.

Lemma all_digits_of_uint d : all_chars Py.is_digit (NilEmpty.string_of_uint d) = true.
Proof. induction d; cbn [NilEmpty.string_of_uint all_chars]; auto. Qed.

Lemma uint_value_pos d p :
  uint_value (Zpos p) d = Zpos (Pos.of_uint_acc d p).
Proof.
  revert p. induction d; intros p; cbn [uint_value Pos.of_uint_acc];
    [reflexivity|..];
    match goal with
    | |- uint_value ?a _ = Zpos (Pos.of_uint_acc _ ?q) =>
        replace a with (Zpos q)
          by lia
    end; apply IHd.
Qed.

Lemma uint_value_zero d : uint_value 0 d = Z.of_N (Pos.of_uint d).
Proof.
  induction d; cbn [uint_value Pos.of_uint]; [reflexivity | exact IHd | ..];
    exact (uint_value_pos _ _).
Qed.

Lemma nilzero_digits d :
  exists c s,
    NilZero.string_of_uint d = String c s
    /\ all_chars Py.is_digit (String c s) = true
    /\ Py.digits_value 0 (String c s) = Some (Z.of_N (Pos.of_uint d)).
Proof.
  pose proof (all_digits_of_uint d) as Hdigits.
  pose proof (digits_value_of_uint d 0) as Hvalue.
  rewrite uint_value_zero in Hvalue. unfold NilZero.string_of_uint.
  destruct d; [exists "0"%char, ""; repeat split|..];
    (eexists _, _; split; [reflexivity|]; split; [exact Hdigits | exact Hvalue]).
Qed.

(** The text of a natural number: digits whose value is the number. *)
Lemma format_d_digits n :
  (0 <= n)%Z ->
  exists c s,
    Py.format_d n = String c s
    /\ all_chars Py.is_digit (String c s) = true
    /\ Py.digits_value 0 (String c s) = Some n.
Proof.
  intros Hn. unfold Py.format_d.
  pose proof (DecimalZ.of_to n) as Hround.
  destruct (Z.to_int n) as [d|d] eqn:Hd.
  - cbn [Z.of_int] in Hround. unfold Z.of_uint in Hround.
    cbn [NilZero.string_of_int]. rewrite <- Hround. apply nilzero_digits.
  - destruct n; cbn in Hd; try discriminate. lia.
Qed.

(** [int("%d" % n) == n] for a natural number [n]. *)
Lemma int_format_d n : (0 <= n)%Z -> Py.int (Py.format_d n) = Ok n.
Proof.
  intros Hn. destruct (format_d_digits n Hn) as (c & s & -> & Hdigits & Hvalue).
  rewrite (int_digits c s Hdigits), Hvalue. reflexivity.
Qed.

(** ** Texts put together from pieces *)



(** Splitting a text at a separator that occurs in it. *)
Lemma split_app_sep sep a b :
  Py.split sep (a ++ String sep b) = (Py.split sep a ++ Py.split sep b)%list.
Proof.
  induction a as [|c a IH]; simpl.
  - rewrite Ascii.eqb_refl. reflexivity.
  - destruct (Ascii.eqb c sep); [rewrite IH; reflexivity|].
    rewrite IH. destruct (split_nonempty sep a) as (w & ws & ->). reflexivity.
Qed.


Lemma drop_last_snoc s c : Py.drop_last (s ++ String c "") = s.
Proof.
  induction s as [|a s IH]; [reflexivity|].
  simpl. destruct (s ++ String c "") eqn:Hs.
  - destruct s; discriminate.
  - change (Py.drop_last (String a (String a0 s0)))
      with (String a (Py.drop_last (String a0 s0))).
    rewrite IH. reflexivity.
Qed.

Lemma mem_char_snoc sep s c :
  mem_char sep s = false -> Ascii.eqb sep c = false ->
  mem_char sep (s ++ String c "") = false.
Proof.
  intros Hs Hc. rewrite mem_char_app, Hs. cbn [mem_char]. rewrite Hc.
  reflexivity.
Qed.

Lemma index_last {A} (l : list A) (x : A) :
  Py.index (l ++ [x])%list (-1) = Ok x.
Proof.
  assert (Py.len (l ++ [x])%list + -1 = Z.of_nat (length l))%Z as Hj
    by (unfold Py.len; rewrite length_app; simpl; lia).
  unfold Py.index. change (-1 <? 0)%Z with true. cbv beta zeta iota.
  rewrite Hj. destruct (Z.ltb_spec (Z.of_nat (length l)) 0); [lia|].
  rewrite Nat2Z.id, lookup_app_r, Nat.sub_diag by lia. reflexivity.
Qed.

Lemma index_first_app {A} (x : A) (l k : list A) :
  Py.index ((x :: l) ++ k)%list 0 = Ok x.
Proof. reflexivity. Qed.

(** ** The arrow of a header line *)





(** ** The pieces between the runs of a class of characters *)

Lemma re_split_go_nonempty p b s :
  exists w ws, Py.re_split_go p b s = w :: ws.
Proof.
  revert b. induction s as [|c s IH]; intros b; cbn [Py.re_split_go];
    [eauto|].
  destruct (p c).
  - destruct b; [apply IH | eauto].
  - destruct (IH false) as (w & ws & ->). eauto.
Qed.






(** ** Header lines that are written out and read back *)







Section HeaderRoundTrip.
Context `{PyFloat}.



Lemma slice_1_3_length {A} (l : list A) : (length (Py.slice l 1 3) <= 2)%nat.
Proof.
  unfold Py.slice, Py.clamp. rewrite length_take.
  change (1 <? 0)%Z with false. change (3 <? 0)%Z with false. cbv iota. lia.
Qed.

Lemma re_split_go_pieces p b s w :
  w ∈ Py.re_split_go p b s -> all_chars (fun c => negb (p c)) w = true.
Proof.
  revert b w. induction s as [|c s IH]; intros b w; cbn [Py.re_split_go].
  - intros Hw. apply list_elem_of_singleton in Hw as ->. reflexivity.
  - destruct (p c) eqn:Hc.
    + destruct b; [apply IH|]. intros Hw.
      apply elem_of_cons in Hw as [->|Hw]; [reflexivity | eapply IH; exact Hw].
    + destruct (Py.re_split_go p false s) as [|v vs] eqn:Hgo.
      * intros Hw. apply list_elem_of_singleton in Hw as ->.
        cbn [all_chars]. rewrite Hc. reflexivity.
      * intros Hw. apply elem_of_cons in Hw as [->|Hw].
        -- cbn [all_chars]. rewrite Hc. cbn [negb andb].
           apply (IH false). rewrite Hgo. left.
        -- apply (IH false). rewrite Hgo. right. exact Hw.
Qed.

Lemma digits_value_nonneg acc s n :
  (0 <= acc)%Z -> Py.digits_value acc s = Some n -> (0 <= n)%Z.
Proof.
  revert acc. induction s as [|c s IH]; intros acc Hacc; cbn [Py.digits_value].
  - intros [= <-]. exact Hacc.
  - destruct (Py.is_digit c); [|discriminate]. apply IH. lia.
Qed.

(** The index that the parser reads in a site token is -1 or more. *)
Lemma site_index_bound site digits n :
  Py.index (Py.re_split (fun c => negb (Py.is_digit c)) site) 1 = Ok digits ->
  Py.int digits = Ok n -> (0 <= n)%Z.
Proof.
  intros Hdigits Hn. apply index_elem_of in Hdigits.
  apply re_split_go_pieces in Hdigits.
  assert (all_chars Py.is_digit digits = true) as Hall.
  { eapply all_chars_impl; [|exact Hdigits].
    intros c Hc. apply negb_true_iff, negb_false_iff in Hc. exact Hc. }
  destruct digits as [|c s]; [discriminate|].
  rewrite (int_digits c s Hall) in Hn.
  destruct (Py.digits_value 0 (String c s)) as [m|] eqn:Hm; [|discriminate].
  injection Hn as <-. eapply digits_value_nonneg; [|exact Hm]. lia.
Qed.

Lemma species_piece site sp :
  Py.index (Py.re_split Py.is_digit site) 0 = Ok sp ->
  all_chars (fun c => negb (Py.is_digit c)) sp = true.
Proof.
  intros Hsp. apply index_elem_of in Hsp.
  eapply re_split_go_pieces. exact Hsp.
Qed.

(** X2. Whenever the parser accepts a line, the label is canonical: a
    species without digits, the first site index plus one in decimal, a
    hyphen, a species without digits and the second site index plus one in
    decimal; and no site index is below -1. *)
Theorem label_is_canonical line label x i0 i1 :
  Cohpcar._get_bond_data line = Ok (label, x, (i0, i1)) ->
  exists sp0 sp1,
    label = sp0 ++ Py.format_d (i0 + 1) ++ "-" ++ sp1 ++ Py.format_d (i1 + 1)
    /\ all_chars (fun c => negb (Py.is_digit c)) sp0 = true
    /\ all_chars (fun c => negb (Py.is_digit c)) sp1 = true
    /\ (-1 <= i0)%Z /\ (-1 <= i1)%Z.
Proof.
  unfold Cohpcar._get_bond_data. intros Hline.
  bind_inv Hline as last Hlast. bind_inv Hline as len Hlen.
  bind_inv Hline as first Hfirst.
  pose proof (slice_1_3_length (Py.split ":" (Py.replace_arrow first)))
    as Hsites.
  destruct (Py.slice (Py.split ":" (Py.replace_arrow first)) 1 3)
    as [|t0 [|t1 [|t2 sites]]]; [| | |simpl in Hsites; lia];
    cbn [mapM mbind mret result_bind result_ret] in Hline.
  - discriminate Hline.
  - bind_inv Hline as indices Hindices. bind_inv Hindices as index0 Hindex0.
    bind_inv Hindex0 as digits0 Hdigits0. bind_inv Hindex0 as n0 Hn0.
    injection Hindex0 as <-. injection Hindices as <-.
    bind_inv Hline as species Hspecies. bind_inv Hspecies as sp0 Hsp0.
    injection Hspecies as <-. discriminate Hline.
  - bind_inv Hline as indices Hindices. bind_inv Hindices as index0 Hindex0.
    bind_inv Hindex0 as digits0 Hdigits0. bind_inv Hindex0 as n0 Hn0.
    injection Hindex0 as <-.
    bind_inv Hindices as indices' Hindices'.
    bind_inv Hindices' as index1 Hindex1.
    bind_inv Hindex1 as digits1 Hdigits1. bind_inv Hindex1 as n1 Hn1.
    injection Hindex1 as <-. injection Hindices' as <-.
    injection Hindices as <-.
    bind_inv Hline as species Hspecies. bind_inv Hspecies as sp0 Hsp0.
    bind_inv Hspecies as species' Hspecies'.
    bind_inv Hspecies' as sp1 Hsp1. injection Hspecies' as <-.
    injection Hspecies as <-.
    injection Hline as <- <- <- <-.
    exists sp0, sp1. split; [reflexivity|].
    split; [eapply species_piece; exact Hsp0|].
    split; [eapply species_piece; exact Hsp1|].
    pose proof (site_index_bound _ _ _ Hdigits0 Hn0).
    pose proof (site_index_bound _ _ _ Hdigits1 Hn1). lia.
Qed.

(** X3. The parser drops the last character of the line without looking at
    it: a line that ends with any character other than [(] after the length
    is read as the line that ends with [)]. *)
Theorem closing_character_not_checked prefix body c :
  mem_char "(" body = false -> Ascii.eqb "(" c = false ->
  Cohpcar._get_bond_data (prefix ++ "(" ++ body ++ String c "")
  = Cohpcar._get_bond_data (prefix ++ "(" ++ body ++ ")").
Proof.
  intros Hbody Hc. unfold Cohpcar._get_bond_data.
  change (prefix ++ "(" ++ body ++ String c "")
    with (prefix ++ String "(" (body ++ String c "")).
  change (prefix ++ "(" ++ body ++ ")")
    with (prefix ++ String "(" (body ++ String ")" "")).
  rewrite !split_app_sep.
  rewrite (split_no_sep "(" (body ++ String c ""))
    by (apply mem_char_snoc; assumption).
  rewrite (split_no_sep "(" (body ++ String ")" ""))
    by (apply mem_char_snoc; [assumption | reflexivity]).
  rewrite !index_last. cbn [mbind result_bind]. rewrite !drop_last_snoc.
  destruct (split_nonempty "(" prefix) as (w & ws & ->).
  reflexivity.
Qed.

End HeaderRoundTrip.


(** X3, witness: a line cut before its closing parenthesis loses the last
    digit of the length. *)
Lemma closing_character_not_checked_witness :
  Cohpcar._get_bond_data (H := DecimalFloat.decimal) "No.4:Fe1->Fe9(2.45"
  = Cohpcar._get_bond_data "No.4:Fe1->Fe9(2.4)".
Proof.
  apply (closing_character_not_checked (H := DecimalFloat.decimal)
           "No.4:Fe1->Fe9" "2.4" "5"); reflexivity.
Defined.

(** X2, witness: the line of the docstring with a shorter length. *)
Lemma label_is_canonical_witness :
  exists sp0 sp1,
    "Fe1-Fe9" = sp0 ++ Py.format_d (0 + 1) ++ "-" ++ sp1 ++ Py.format_d (8 + 1)
    /\ all_chars (fun c => negb (Py.is_digit c)) sp0 = true
    /\ all_chars (fun c => negb (Py.is_digit c)) sp1 = true
    /\ (-1 <= 0)%Z /\ (-1 <= 8)%Z.
Proof.
  apply (label_is_canonical (H := DecimalFloat.decimal)
           "No.4:Fe1->Fe9(2.5)" "Fe1-Fe9" (5 # 2)).
  reflexivity.
Defined.

(** ** The data rows of a COHPCAR file *)

Section DataRows.
Context `{PyFloat}.

(** The channel read last: [enumerate(spins)[-1]]. *)
Lemma last_channel flag :
  exists spin,
    (Z.of_nat (length (Cohpcar.spins_of flag)) - 1, spin)%Z ∈ channels flag.
Proof.
  unfold channels, Cohpcar.spins_of. destruct (flag =? 2)%Z; simpl.
  - exists Spin_down. right. left.
  - exists Spin_up. left.
Qed.

Lemma read_data_width contents nb data :
  Cohpcar.read_data contents nb = Ok data ->
  exists rows,
    Cohpcar.data_rows contents nb = Ok rows
    /\ Forall (fun row => length row = length data) rows.
Proof.
  unfold Cohpcar.read_data. intros Hdata.
  bind_inv Hdata as rows Hrows. bind_inv Hdata as arr Harr.
  injection Hdata as <-. exists rows. split; [exact Hrows|].
  apply array_inv in Harr as [-> [c Hrect]].
  destruct rows as [|r rs]; [constructor|]. unfold Np.transpose.
  assert (c = length r) as -> by (inversion Hrect; congruence).
  rewrite transpose_go_length by exact Hrect. exact Hrect.
Qed.

Lemma mapM_elem {A B} (f : A -> result B) (l : list A) (k : list B) x :
  mapM f l = Ok k -> x ∈ l -> exists y, y ∈ k /\ f x = Ok y.
Proof.
  revert k. induction l as [|a l IH]; intros k Hk Hx.
  - inversion Hx.
  - cbn [mapM] in Hk. bind_inv Hk as y Hy. bind_inv Hk as k' Hk'.
    injection Hk as <-. apply elem_of_cons in Hx as [->|Hx].
    + exists y. split; [left | exact Hy].
    + destruct (IH k' Hk' Hx) as (z & Hz & Hfz). exists z.
      split; [right; exact Hz | exact Hfz].
Qed.

(** X4. In a decoded file there is at least one data row, all the data
    rows have the same number of floats, the energy grid is their first
    column, with one energy per line after the bond headers, and, when the
    header count is at least one, every row has more than
    [2 * channels * (bondCount + 1)] floats. *)
Theorem data_rows_shape ac text obj :
  Cohpcar.new ac text = Ok obj ->
  let contents := Py.split Cohpcar.newline text in
  exists nb ef flag rows grid width,
    Cohpcar.read_parameters contents = Ok (nb, ef, flag)
    /\ Cohpcar.data_rows contents nb = Ok rows
    /\ rows <> []
    /\ length rows = length (Py.slice_from contents (nb + 3))
    /\ Forall (fun row => length row = width) rows
    /\ Cohpcar.energies obj = Some grid
    /\ column rows 0 = Some grid
    /\ length grid = length rows
    /\ ((0 <= nb)%Z ->
        (2 * Z.of_nat (length (Cohpcar.spins_of flag)) * (nb + 1)
         < Z.of_nat width)%Z).
Proof.
  intros Hobj contents. apply new_inv in Hobj. simpl in Hobj.
  fold contents in Hobj.
  destruct Hobj as (nb & ef & flag & data & column0 & average & entries
                    & Hparams & Hdata & Hcolumn0 & Haverage & Hentries & ->).
  destruct (read_data_inv _ _ _ Hdata) as (rows & Hrows & Hcolumns & Hlengths).
  destruct (read_data_width _ _ _ Hdata) as (rows' & Hrows' & Hwidth).
  rewrite Hrows in Hrows'. injection Hrows' as <-.
  exists nb, ef, flag, rows, column0, (length data).
  split; [exact Hparams|]. split; [exact Hrows|].
  split.
  { intros ->. unfold Cohpcar.read_data in Hdata. rewrite Hrows in Hdata.
    simpl in Hdata. injection Hdata as <-. discriminate Hcolumn0. }
  split. { eapply mapM_length. exact Hrows. }
  split; [exact Hwidth|]. split; [reflexivity|].
  split. { apply Hcolumns; [lia | exact Hcolumn0]. }
  split.
  { rewrite Forall_forall in Hlengths. apply Hlengths.
    eapply index_elem_of. exact Hcolumn0. }
  intros Hnb. destruct (last_channel flag) as [spin Hspin].
  set (k := Z.of_nat (length (Cohpcar.spins_of flag))) in *.
  assert (1 <= k)%Z as Hk.
  { pose proof (channels_position _ _ _ Hspin). lia. }
  destruct (decide (nb = 0%Z)) as [->|Hpos].
  - unfold Cohpcar.average_entry in Haverage.
    bind_inv Haverage as cohp Hcohp. bind_inv Haverage as icohp Hicohp.
    destruct (spin_dict_lookup _ _ _ _ _ _ Hicohp Hspin) as (col & Hcol & _).
    apply index_Ok_lt in Hcol; [|lia]. unfold Py.len in Hcol. lia.
  - destruct (Forall2_lookup_l _ _ _ _ _ Hentries
                (range_lookup nb (nb - 1) ltac:(lia)))
      as ([label entry] & _ & Hentry).
    apply bond_entry_inv in Hentry
      as (len & st & cohp & icohp & _ & _ & Hicohp & _).
    destruct (spin_dict_lookup _ _ _ _ _ _ Hicohp Hspin) as (col & Hcol & _).
    apply index_Ok_lt in Hcol; [|nia]. unfold Py.len in Hcol. nia.
Qed.

(** X5. A line without any token among the lines after the bond headers
    (such as the empty last line of a text that ends with a line end) makes
    the construction raise. *)
Theorem blank_data_line_raises ac text nb ef flag line :
  let contents := Py.split Cohpcar.newline text in
  Cohpcar.read_parameters contents = Ok (nb, ef, flag) ->
  line ∈ Py.slice_from contents (nb + 3) ->
  Py.split_ws line = [] ->
  is_Raise (Cohpcar.new ac text).
Proof.
  intros contents Hparams Hline Hblank.
  unfold Cohpcar.new, Cohpcar.__init__. fold contents. rewrite Hparams.
  cbn [mbind result_bind]. unfold Cohpcar.decode.
  destruct (Cohpcar.read_data contents nb) as [data|e] eqn:Hdata;
    cbn [mbind result_bind]; [|by eexists].
  destruct (read_data_width _ _ _ Hdata) as (rows & Hrows & Hwidth).
  destruct (mapM_elem _ _ _ _ Hrows Hline) as (row & Hrow & Htokens).
  rewrite Hblank in Htokens. injection Htokens as <-.
  rewrite Forall_forall in Hwidth. specialize (Hwidth _ Hrow).
  destruct data as [|col data]; [|discriminate Hwidth]. by eexists.
Qed.

(** X6. A bond header that the parser refuses, among the [bondCount] lines
    from the fourth on, makes the construction raise. *)
Theorem bad_header_raises ac text nb ef flag i :
  let contents := Py.split Cohpcar.newline text in
  Cohpcar.read_parameters contents = Ok (nb, ef, flag) ->
  (0 <= i < nb)%Z ->
  is_Raise (header contents i) ->
  is_Raise (Cohpcar.new ac text).
Proof.
  intros contents Hparams Hi Hheader.
  unfold Cohpcar.new, Cohpcar.__init__. fold contents. rewrite Hparams.
  cbn [mbind result_bind]. unfold Cohpcar.decode.
  destruct (Cohpcar.read_data contents nb) as [data|e];
    cbn [mbind result_bind]; [|by eexists].
  destruct (Py.index data 0) as [column0|e];
    cbn [mbind result_bind]; [|by eexists].
  destruct (Cohpcar.average_entry _ nb data) as [average|e];
    cbn [mbind result_bind]; [|by eexists].
  apply bind_Raise. apply (foldM_Raise _ _ _ i); [apply range_elem; exact Hi|].
  intros m. apply bind_Raise. unfold Cohpcar.bond_entry.
  unfold header in Hheader.
  destruct (Py.index contents (3 + i)) as [line|e];
    cbn [mbind result_bind] in *; [|by eexists].
  apply bind_Raise. exact Hheader.
Qed.

(** X7. In a decoded file the record of the average is the only one
    without a length and without site indices. *)
Theorem only_average_lacks_length ac text obj :
  Cohpcar.new ac text = Ok obj ->
  exists m,
    Cohpcar.cohp_data obj = Some m
    /\ forall key entry, m !! key = Some entry ->
         (key = "average" <-> Cohpcar.bond_length entry = None)
         /\ (key = "average" <-> Cohpcar.sites entry = None).
Proof.
  intros Hobj. apply new_inv in Hobj. simpl in Hobj.
  destruct Hobj as (nb & ef & flag & data & column0 & average & entries
                    & Hparams & Hdata & Hcolumn0 & Haverage & Hentries & ->).
  eexists. split; [reflexivity|]. intros key entry Hkey.
  pose proof (entries_not_average _ _ _ _ _ _ Hentries) as Hnot.
  apply lookup_insert_entries_inv in Hkey as [Hin|[_ Hkey]].
  - assert (key <> "average") as Hne.
    { intros ->. apply Hnot. apply list_elem_of_fmap.
      exists ("average", entry). split; [reflexivity | exact Hin]. }
    apply list_elem_of_lookup in Hin as [j Hj].
    destruct (Forall2_lookup_r _ _ _ _ _ Hentries Hj) as (b & _ & Hentry).
    apply bond_entry_inv in Hentry as (len & st & cohp & icohp & _ & _ & _ & ->).
    simpl. split; split; intros; congruence.
  - apply lookup_singleton_Some in Hkey as [<- <-].
    unfold Cohpcar.average_entry in Haverage.
    bind_inv Haverage as cohp Hcohp. bind_inv Haverage as icohp Hicohp.
    injection Haverage as <-. simpl. split; split; reflexivity.
Qed.

(** X8. The flag [are_coops] is recorded and nothing else: a text is decoded
    the same way as a COOPCAR and as a COHPCAR file. *)
Theorem are_coops_only_recorded text :
  Cohpcar.new true text
  = Cohpcar.set_are_coops true <$> Cohpcar.new false text.
Proof.
  unfold Cohpcar.new, Cohpcar.__init__.
  destruct (Cohpcar.read_parameters _) as [[[nb ef] flag]|e];
    cbn [mbind result_bind fmap result_fmap]; [|reflexivity].
  unfold Cohpcar.decode.
  destruct (Cohpcar.read_data _ nb) as [data|e];
    cbn [mbind result_bind fmap result_fmap]; [|reflexivity].
  destruct (Py.index data 0) as [column0|e];
    cbn [mbind result_bind fmap result_fmap]; [|reflexivity].
  destruct (Cohpcar.average_entry _ nb data) as [average|e];
    cbn [mbind result_bind fmap result_fmap]; [|reflexivity].
  destruct (foldM _ _ _) as [m|e];
    cbn [mbind result_bind fmap result_fmap]; reflexivity.
Qed.

End DataRows.

(** ** The lines of an ICOHPLIST file *)

Section SummaryLines.
Context `{PyFloat}.

Lemma slice_inner {A} (first last : A) (middle : list A) :
  Py.slice (first :: middle ++ [last])%list 1 (-1) = middle.
Proof.
  unfold Py.slice, Py.clamp, Py.len.
  change (1 <? 0)%Z with false. change (-1 <? 0)%Z with true. cbv iota.
  cbn [length]. rewrite length_app. cbn [length].
  replace (Z.to_nat (Z.min 1 (Z.of_nat (S (length middle + 1))))) with 1%nat
    by lia.
  replace (Z.to_nat (Z.max (Z.of_nat (S (length middle + 1)) + -1) 0) - 1)%nat
    with (length middle) by lia.
  change (drop 1 (first :: middle ++ [last])%list) with (middle ++ [last])%list.
  apply take_app_length.
Qed.

(** X9. The first and the last line of the text are never read: two texts
    with the same lines in between are decoded to the same result. A text
    that does not end with a line end loses its last data line. *)
Theorem first_and_last_line_not_read ac text1 text2 first1 first2 middle
    last1 last2 :
  Py.split Cohpcar.newline text1 = (first1 :: middle ++ [last1])%list ->
  Py.split Cohpcar.newline text2 = (first2 :: middle ++ [last2])%list ->
  Icohplist.new ac text1 = Icohplist.new ac text2.
Proof.
  intros Htext1 Htext2. unfold Icohplist.new, Icohplist.__init__.
  unfold Icohplist.data_lines. rewrite Htext1, Htext2, !slice_inner.
  reflexivity.
Qed.

Lemma summary_entry_channels data nb polarized b label entry :
  summary_entry data nb polarized b = Ok (label, entry) ->
  dom (Icohplist.icohp entry)
  = (if polarized then {[Spin_up; Spin_down]} else {[Spin_up]} : gset Spin).
Proof.
  unfold summary_entry. intros Hentry.
  bind_inv Hentry as row Hrow. bind_inv Hentry as elem1 Helem1.
  bind_inv Hentry as elem2 Helem2. bind_inv Hentry as c3 Hc3.
  bind_inv Hentry as len Hlen. bind_inv Hentry as c4 Hc4.
  bind_inv Hentry as up Hup. bind_inv Hentry as c5 Hc5.
  bind_inv Hentry as num Hnum. destruct polarized.
  - bind_inv Hentry as row' Hrow'. bind_inv Hentry as c4' Hc4'.
    bind_inv Hentry as down Hdown. injection Hentry as <- <-. simpl.
    rewrite dom_insert_L, dom_singleton_L. set_solver.
  - injection Hentry as <- <-. simpl. apply dom_singleton_L.
Qed.

(** X10. Every record of a decoded file has exactly the channels of the
    file: the majority value, and the minority value exactly when the file
    is spin polarized. *)
Theorem summary_records_channels ac text obj :
  Icohplist.new ac text = Ok obj ->
  exists polarized m,
    Icohplist.is_spin_polarized obj = Some polarized
    /\ Icohplist.icohplist obj = Some m
    /\ forall label entry, m !! label = Some entry ->
         dom (Icohplist.icohp entry)
         = (if polarized then {[Spin_up; Spin_down]} else {[Spin_up]}
            : gset Spin).
Proof.
  intros Hobj. apply new_inv_summary in Hobj. simpl in Hobj.
  destruct Hobj as (nb & polarized & entries & Hdetect & Hentries & ->).
  exists polarized, (insert_entries ∅ entries).
  split; [reflexivity|]. split; [reflexivity|].
  intros label entry Hlookup.
  apply lookup_insert_entries_inv in Hlookup as [Hin|[_ Hempty]].
  - apply list_elem_of_lookup in Hin as [j Hj].
    destruct (Forall2_lookup_r _ _ _ _ _ Hentries Hj) as (b & _ & Hentry).
    eapply summary_entry_channels. exact Hentry.
  - rewrite lookup_empty in Hempty. discriminate.
Qed.

(** X11. The flag [are_coops] is recorded and nothing else: a text is
    decoded the same way as an ICOOPLIST and as an ICOHPLIST file. *)
Theorem list_flag_only_recorded text :
  Icohplist.new true text
  = Icohplist.set_are_coops true <$> Icohplist.new false text.
Proof.
  unfold Icohplist.new, Icohplist.__init__.
  destruct (Icohplist.detect _) as [[nb polarized]|e];
    cbn [mbind result_bind fmap result_fmap]; [|reflexivity].
  destruct (foldM _ _ _) as [m|e];
    cbn [mbind result_bind fmap result_fmap]; reflexivity.
Qed.

(** X12. Of the data lines the reader uses the test for [distance] in the
    line in the middle, the second to the sixth column of the lines of the
    majority half and the fifth column of the lines of the minority half,
    and nothing else: two texts that agree on these are decoded to the same
    instance, or raise the same exception. *)
Theorem only_listed_columns_read ac text1 text2 nb polarized :
  let data1 := Icohplist.data_lines text1 in
  let data2 := Icohplist.data_lines text2 in
  Icohplist.detect data1 = Ok (nb, polarized) ->
  Icohplist.detect data2 = Ok (nb, polarized) ->
  (forall b k, (0 <= b < nb)%Z -> (1 <= k <= 5)%Z ->
               token_at data1 b k = token_at data2 b k) ->
  (polarized = true ->
   forall b, (0 <= b < nb)%Z ->
             token_at data1 (b + nb + 1) 4 = token_at data2 (b + nb + 1) 4) ->
  Icohplist.new ac text1 = Icohplist.new ac text2.
Proof.
  intros data1 data2 Hdetect1 Hdetect2 Hmajor Hminor.
  unfold Icohplist.new, Icohplist.__init__. fold data1 data2.
  rewrite Hdetect1, Hdetect2. clear Hdetect1 Hdetect2.
  cbn [mbind result_bind]. f_equal.
  apply foldM_ext. intros m b Hb. apply range_elem in Hb.
  pose proof (Hmajor b 1%Z Hb ltac:(lia)) as T1.
  pose proof (Hmajor b 2%Z Hb ltac:(lia)) as T2.
  pose proof (Hmajor b 3%Z Hb ltac:(lia)) as T3.
  pose proof (Hmajor b 4%Z Hb ltac:(lia)) as T4.
  pose proof (Hmajor b 5%Z Hb ltac:(lia)) as T5.
  unfold Icohplist.bond_step, token_at in *.
  destruct (Py.index data1 b) as [row1|e1];
    destruct (Py.index data2 b) as [row2|e2]; cbn [mbind result_bind] in *.
  - rewrite T1, T2, T3, T4, T5.
    destruct (Py.index (Py.split_ws row2) 1) as [elem1|e];
      cbn [mbind result_bind]; [|reflexivity].
    destruct (Py.index (Py.split_ws row2) 2) as [elem2|e];
      cbn [mbind result_bind]; [|reflexivity].
    destruct (Py.index (Py.split_ws row2) 3) as [c3|e];
      cbn [mbind result_bind]; [|reflexivity].
    destruct (py_float c3) as [len|e]; cbn [mbind result_bind];
      [|reflexivity].
    destruct (Py.index (Py.split_ws row2) 4) as [c4|e];
      cbn [mbind result_bind]; [|reflexivity].
    destruct (py_float c4) as [up|e]; cbn [mbind result_bind]; [|reflexivity].
    destruct (Py.index (Py.split_ws row2) 5) as [c5|e];
      cbn [mbind result_bind]; [|reflexivity].
    destruct (Py.int c5) as [num|e]; cbn [mbind result_bind]; [|reflexivity].
    destruct polarized; [|reflexivity].
    specialize (Hminor eq_refl b Hb).
    destruct (Py.index data1 _) as [row1'|e1];
      destruct (Py.index data2 _) as [row2'|e2];
      cbn [mbind result_bind] in *.
    + rewrite Hminor. reflexivity.
    + destruct (Py.index (Py.split_ws row1') 4); [discriminate|].
      cbn [mbind result_bind]. injection Hminor as ->. reflexivity.
    + destruct (Py.index (Py.split_ws row2') 4); [discriminate|].
      cbn [mbind result_bind]. injection Hminor as ->. reflexivity.
    + injection Hminor as ->. reflexivity.
  - rewrite T1. reflexivity.
  - rewrite <- T1. reflexivity.
  - injection T1 as ->. reflexivity.
Qed.

End SummaryLines.

(** ** The files at the edges of the formats, decoded *)

Module EdgeCaseFacts.
Import DecimalFloat Examples EdgeCases.

Lemma one_bond_line_end_parameters :
  Cohpcar.read_parameters (Py.split Cohpcar.newline one_bond_line_end)
  = Ok (1%Z, (0 # 1) : float, 1%Z).
Proof. reflexivity. Qed.

Lemma one_bond_line_end_last :
  "" ∈ Py.slice_from (Py.split Cohpcar.newline one_bond_line_end) (1 + 3).
Proof.
  change (Py.slice_from (Py.split Cohpcar.newline one_bond_line_end) (1 + 3))
    with ["-1.0 11.0 12.0 13.0 14.0"; "0.0 21.0 22.0 23.0 24.0";
          "1.0 31.0 32.0 33.0 34.0"; ""].
  do 3 right. left.
Qed.

Lemma one_site_header_parameters :
  Cohpcar.read_parameters (Py.split Cohpcar.newline one_site_header)
  = Ok (1%Z, (0 # 1) : float, 1%Z).
Proof. reflexivity. Qed.

Lemma one_site_header_refused :
  header (Py.split Cohpcar.newline one_site_header) 0 = Raise IndexError.
Proof. reflexivity. Qed.

Lemma negative_count_energies_1 :
  Cohpcar.energies <$> Cohpcar.new false (negative_count "1.0 2.0 3.0")
  = Ok (Some ([1 # 1; -4 # 1] : list float)).
Proof. reflexivity. Qed.

Lemma negative_count_energies_5 :
  Cohpcar.energies <$> Cohpcar.new false (negative_count "5.0 2.0 3.0")
  = Ok (Some ([5 # 1; -4 # 1] : list float)).
Proof. reflexivity. Qed.

Lemma polarized_data_lines :
  Icohplist.data_lines polarized = polarized_lines.
Proof. reflexivity. Qed.

Lemma polarized_detected :
  Icohplist.detect (Icohplist.data_lines polarized) = Ok (2%Z, true).
Proof. reflexivity. Qed.

Lemma polarized_other_columns_data_lines :
  Icohplist.data_lines polarized_other_columns
  = ["     11     Fe1     Fe9      2.5        -1.5   2   more";
     "     12     Fe1     Fe9      3.5        -2.5   4";
     "  the distance, once more";
     "      7     Zn3     O17      9.5        -0.5   1   more";
     "      x     y       z        w          -4.5"].
Proof. reflexivity. Qed.

Lemma polarized_other_columns_detected :
  Icohplist.detect (Icohplist.data_lines polarized_other_columns)
  = Ok (2%Z, true).
Proof. reflexivity. Qed.

End EdgeCaseFacts.

(** ** The first two lines of a COHPCAR file *)

Section FirstLines.
Context `{PyFloat}.

Lemma index_skip1 {A} (a : A) (rest : list A) (i : Z) :
  (0 <= i)%Z -> Py.index (a :: rest) (1 + i) = Py.index rest i.
Proof.
  intros Hi. rewrite !index_nonneg by lia.
  replace (Z.to_nat (1 + i)) with (S (Z.to_nat i)) by lia.
  reflexivity.
Qed.

Lemma slice_from_skip1 {A} (a : A) (rest : list A) (n : Z) :
  (0 <= n)%Z ->
  Py.slice_from (a :: rest) (n + 1) = Py.slice_from rest n.
Proof.
  intros Hn. unfold Py.slice_from, Py.clamp, Py.len. simpl length.
  destruct (n + 1 <? 0)%Z eqn:H1; [lia|].
  destruct (n <? 0)%Z eqn:H2; [lia|].
  replace (Z.to_nat (Z.min (n + 1) (Z.of_nat (S (length rest)))))
    with (S (Z.to_nat (Z.min n (Z.of_nat (length rest))))) by lia.
  reflexivity.
Qed.

(** With a header count of at least minus one, what follows the parameters
    line is decoded without the first line. *)
Lemma decode_title title1 title2 rest nb flag self :
  (-2 <= nb)%Z ->
  Cohpcar.decode (title1 :: rest) nb flag self
  = Cohpcar.decode (title2 :: rest) nb flag self.
Proof.
  intros Hnb. unfold Cohpcar.decode, Cohpcar.read_data, Cohpcar.data_rows.
  replace (nb + 3)%Z with (nb + 2 + 1)%Z by lia.
  rewrite !slice_from_skip1 by lia.
  destruct (mapM _ (Py.slice_from rest (nb + 2))) as [rows|e]; simpl;
    [|reflexivity].
  destruct (Np.array rows) as [arr|e]; simpl; [|reflexivity].
  destruct (Py.index (Np.transpose arr) 0) as [column0|e]; simpl;
    [|reflexivity].
  destruct (Cohpcar.average_entry _ nb _) as [average|e]; simpl;
    [|reflexivity].
  erewrite foldM_ext; [reflexivity|].
  intros m i Hi. unfold Py.range in Hi. apply elem_of_seqZ in Hi.
  unfold Cohpcar.bond_entry.
  replace (3 + i)%Z with (1 + (2 + i))%Z by lia.
  rewrite !index_skip1 by lia. reflexivity.
Qed.

(** X13. When the header count on the parameters line is at least minus
    one, the first line of the text is never read: two texts that differ
    only in their first line are decoded to the same instance, or raise
    the same exception. With a smaller count the data rows are counted
    from the end of the text and can reach the first line. *)
Theorem title_line_not_read ac text1 text2 title1 title2 params rest :
  Py.split Cohpcar.newline text1 = title1 :: params :: rest ->
  Py.split Cohpcar.newline text2 = title2 :: params :: rest ->
  (forall first n, Py.index (Py.split_ws params) 0 = Ok first ->
                   Py.int first = Ok n -> (-1 <= n)%Z) ->
  Cohpcar.new ac text1 = Cohpcar.new ac text2.
Proof.
  intros Htext1 Htext2 Hcount. unfold Cohpcar.new, Cohpcar.__init__.
  rewrite Htext1, Htext2.
  change (Cohpcar.read_parameters (title1 :: params :: rest))
    with (Cohpcar.read_parameters (title2 :: params :: rest)).
  destruct (Cohpcar.read_parameters _) as [[[nb ef] flag]|e] eqn:Hparams;
    simpl; [|reflexivity].
  apply decode_title.
  apply read_parameters_inv in Hparams
    as (line & first & second & last & n & Hline & Hfirst & Hn & _ & _ & _
        & _ & ->).
  injection Hline as <-. specialize (Hcount first n Hfirst Hn). lia.
Qed.

(** X14. A text without a second line, and a text whose second line has
    fewer than two tokens, is refused. *)
Theorem parameters_line_too_short ac text :
  (forall line, Py.index (Py.split Cohpcar.newline text) 1 = Ok line ->
                (length (Py.split_ws line) < 2)%nat) ->
  is_Raise (Cohpcar.new ac text).
Proof.
  intros Hshort. unfold Cohpcar.new, Cohpcar.__init__.
  apply bind_Raise. unfold Cohpcar.read_parameters.
  destruct (Py.index (Py.split Cohpcar.newline text) 1) as [line|e];
    cbn [mbind result_bind]; [|by eexists].
  specialize (Hshort line eq_refl).
  destruct (Py.index (Py.split_ws line) 0) as [p0|e];
    cbn [mbind result_bind]; [|by eexists].
  destruct (Py.int p0) as [n|e]; cbn [mbind result_bind]; [|by eexists].
  destruct (Py.index (Py.split_ws line) (-1)) as [plast|e];
    cbn [mbind result_bind]; [|by eexists].
  destruct (py_float plast) as [ef|e]; cbn [mbind result_bind];
    [|by eexists].
  rewrite (index_short (Py.split_ws line) 1) by (unfold Py.len; lia).
  by eexists.
Qed.

End FirstLines.

(** With a header count of minus four the two lines of the text are its
    data rows, and the first float of the first line is an energy. *)
Example title_line_read_with_negative_count :
  Cohpcar.new (H := DecimalFloat.decimal) false
    (EdgeCases.negative_count "1.0 2.0 3.0")
  <> Cohpcar.new false (EdgeCases.negative_count "5.0 2.0 3.0").
Proof.
  intros Heq. pose proof EdgeCaseFacts.negative_count_energies_1 as H1.
  rewrite Heq, EdgeCaseFacts.negative_count_energies_5 in H1. discriminate H1.
Qed.

(** ** The properties on the example files *)

(** X13, witness: the file of one bond under two titles. *)
Lemma title_line_not_read_witness :
  Cohpcar.new (H := DecimalFloat.decimal) false Examples.one_bond
  = Cohpcar.new false EdgeCases.one_bond_retitled.
Proof.
  apply (title_line_not_read (H := DecimalFloat.decimal) false _ _
           "COHPCAR" "COOPCAR of another run" "2 1 3 -1.0 1.0 0.0"
           ["Average"; "No.1:Fe1->Fe9(2.5)"; "-1.0 11.0 12.0 13.0 14.0";
            "0.0 21.0 22.0 23.0 24.0"; "1.0 31.0 32.0 33.0 34.0"]).
  - reflexivity.
  - reflexivity.
  - intros first n [= <-] [= <-]. lia.
Defined.

(** X4, witness: the file of one bond has three rows of five floats. *)
Lemma data_rows_shape_witness :
  exists nb ef flag rows grid width,
    Cohpcar.read_parameters (H := DecimalFloat.decimal)
      (Py.split Cohpcar.newline Examples.one_bond) = Ok (nb, ef, flag)
    /\ Cohpcar.data_rows (Py.split Cohpcar.newline Examples.one_bond) nb
       = Ok rows
    /\ rows <> []
    /\ length rows
       = length (Py.slice_from (Py.split Cohpcar.newline Examples.one_bond)
                               (nb + 3))
    /\ Forall (fun row => length row = width) rows
    /\ Cohpcar.energies Examples.one_bond_instance = Some grid
    /\ column rows 0 = Some grid
    /\ length grid = length rows
    /\ ((0 <= nb)%Z ->
        (2 * Z.of_nat (length (Cohpcar.spins_of flag)) * (nb + 1)
         < Z.of_nat width)%Z).
Proof.
  apply (data_rows_shape (H := DecimalFloat.decimal) false Examples.one_bond
           Examples.one_bond_instance).
  exact ExampleFacts.one_bond_decodes.
Defined.

(** X5, witness: the file of one bond with a line end after its last
    line. *)
Lemma blank_data_line_raises_witness :
  is_Raise (Cohpcar.new (H := DecimalFloat.decimal) false
              EdgeCases.one_bond_line_end).
Proof.
  apply (blank_data_line_raises (H := DecimalFloat.decimal) false
           EdgeCases.one_bond_line_end 1 (0 # 1) 1 "").
  - exact EdgeCaseFacts.one_bond_line_end_parameters.
  - exact EdgeCaseFacts.one_bond_line_end_last.
  - reflexivity.
Defined.

(** X6, witness: a header line with one site. *)
Lemma bad_header_raises_witness :
  is_Raise (Cohpcar.new (H := DecimalFloat.decimal) false
              EdgeCases.one_site_header).
Proof.
  apply (bad_header_raises (H := DecimalFloat.decimal) false
           EdgeCases.one_site_header 1 (0 # 1) 1 0).
  - exact EdgeCaseFacts.one_site_header_parameters.
  - lia.
  - exists IndexError. exact EdgeCaseFacts.one_site_header_refused.
Defined.

(** X7, witness: the file of one bond. *)
Lemma only_average_lacks_length_witness :
  exists m,
    Cohpcar.cohp_data Examples.one_bond_instance = Some m
    /\ forall key entry, m !! key = Some entry ->
         (key = "average" <-> Cohpcar.bond_length entry = None)
         /\ (key = "average" <-> Cohpcar.sites entry = None).
Proof.
  apply (only_average_lacks_length (H := DecimalFloat.decimal) false
           Examples.one_bond Examples.one_bond_instance).
  exact ExampleFacts.one_bond_decodes.
Defined.

(** X9, witness: the spin polarized list under another first line and
    before a last line that is not empty. *)
Lemma first_and_last_line_not_read_witness :
  Icohplist.new (H := DecimalFloat.decimal) false Examples.polarized
  = Icohplist.new false EdgeCases.polarized_framed.
Proof.
  apply (first_and_last_line_not_read (H := DecimalFloat.decimal) false
           Examples.polarized EdgeCases.polarized_framed
           "  COHP#  atomMU  atomNU     distance     translation      ICOHP (at) eF   for spin  1"
           "ICOOPLIST" EdgeCases.polarized_lines "" "end of the list");
    reflexivity.
Defined.

(** X10, witness: the spin polarized list. *)
Lemma summary_records_channels_witness :
  exists polarized m,
    Icohplist.is_spin_polarized Examples.polarized_instance = Some polarized
    /\ Icohplist.icohplist Examples.polarized_instance = Some m
    /\ forall label entry, m !! label = Some entry ->
         dom (Icohplist.icohp entry)
         = (if polarized then {[Spin_up; Spin_down]} else {[Spin_up]}
            : gset Spin).
Proof.
  apply (summary_records_channels (H := DecimalFloat.decimal) false
           Examples.polarized Examples.polarized_instance).
  exact ExampleFacts.polarized_decodes.
Defined.

(** X12, witness: the spin polarized list with other first columns, more
    columns and other lines in its minority half. *)
Lemma only_listed_columns_read_witness :
  Icohplist.new (H := DecimalFloat.decimal) false Examples.polarized
  = Icohplist.new false EdgeCases.polarized_other_columns.
Proof.
  apply (only_listed_columns_read (H := DecimalFloat.decimal) false
           Examples.polarized EdgeCases.polarized_other_columns 2 true).
  - exact EdgeCaseFacts.polarized_detected.
  - exact EdgeCaseFacts.polarized_other_columns_detected.
  - intros b k Hb Hk.
    rewrite EdgeCaseFacts.polarized_data_lines,
      EdgeCaseFacts.polarized_other_columns_data_lines.
    assert (b = 0 \/ b = 1)%Z as [->| ->] by lia;
      (assert (k = 1 \/ k = 2 \/ k = 3 \/ k = 4 \/ k = 5)%Z
         as [->|[->|[->|[->| ->]]]] by lia); reflexivity.
  - intros _ b Hb.
    rewrite EdgeCaseFacts.polarized_data_lines,
      EdgeCaseFacts.polarized_other_columns_data_lines.
    assert (b = 0 \/ b = 1)%Z as [->| ->] by lia; reflexivity.
Defined.

(** X14, witness: a parameters line of one token. *)
Lemma parameters_line_too_short_witness :
  is_Raise (Cohpcar.new (H := DecimalFloat.decimal) false
              EdgeCases.one_parameter).
Proof.
  apply (parameters_line_too_short (H := DecimalFloat.decimal) false
           EdgeCases.one_parameter).
  intros line [= <-]. apply Nat.ltb_lt. reflexivity.
Defined.
